(** * GPX analyzer: a shallow embedding of [gpx_analyzer.py]

    The analyzer is one class, [GPXAnalyzer], whose methods run in a fixed
    order: [load_gpx_file], [extract_track_data], [calculate_metrics], then
    the two presenters.  The metrics are computed with Python floats, the
    [geopy] geodesic distance and a [pandas] data frame.  The arithmetic
    is kept abstract: a [Platform] gives the carrier of the (non-NaN) float
    values, its operations and the geodesic distance.  The laws a statement
    needs are stated as hypotheses where they are used; all of them hold of
    IEEE doubles away from NaN.  Sums are written as additions from the
    left; what the order of a sum could change by rounding is claimed
    nowhere outside the lemmas that say so.

    The first part takes the track of the specification and a desktop that
    works; the second part adds the points [geopy] rejects and the
    presenters that fail. *)

From Stdlib Require Import List ZArith Lia Bool.
From Stdlib Require String.
Import String.StringSyntax.
Delimit Scope string_scope with string.
Import ListNotations.

Definition string : Set := String.string.

Set Implicit Arguments.

(** ** The numeric platform *)

Class Platform : Type := {
  num : Type;                         (* a Python float that is not NaN *)
  zero : num;                         (* [0] and [0.0] *)
  add : num -> num -> num;            (* [a + b] *)
  sub : num -> num -> num;            (* [a - b] *)
  leb : num -> num -> bool;           (* [a <= b] *)
  geodesic : num * num -> num * num -> num
                                      (* [geodesic(p, q).meters] *)
}.

(** The integers are a platform; they serve to evaluate the model on
    concrete tracks.  The distance is the taxicab distance on the grid. *)
Definition taxicab (p q : Z * Z) : Z :=
  (Z.abs (fst q - fst p) + Z.abs (snd q - snd p))%Z.

Definition ZPlatform : Platform :=
  {| num := Z; zero := 0%Z; add := Z.add; sub := Z.sub; leb := Z.leb;
     geodesic := taxicab |}.

(** ** Exceptions *)

(** The two [ValueError]s the analyzer raises itself, and the one of
    [geopy]. *)
Inductive complaint : Type :=
| NoTracks                    (* the GPX file holds no track *)
| NoPoints                    (* the GPX file holds no point *)
| BadCoordinate.              (* geopy does not accept a point *)

Inductive exception : Type :=
| FileNotFoundError
| ParserError                 (* anything else [open] or [gpxpy.parse] raises *)
| ValueError (why : complaint)
| KeyError
| IndexError
| AttributeError
| TypeError
| OSError.                    (* a document cannot be written, a window not opened *)

(** ** Running a method

    A method shows events of some type [E] and then either returns, leaves
    through [exit(code)], or raises. *)

Inductive abort : Type :=
| SystemExit (code : Z)
| Raised (e : exception).

Definition outcome (E A : Type) : Type := list E * (abort + A).

Definition ret {E A} (a : A) : outcome E A := ([], inr a).

Definition bind {E A B} (c : outcome E A) (k : A -> outcome E B)
  : outcome E B :=
  match c with
  | (out, inl stop) => (out, inl stop)
  | (out, inr a) => let (out', r) := k a in (out ++ out', r)
  end.

Definition emit {E} (e : E) : outcome E unit := ([e], inr tt).
Definition exit {E A} (code : Z) : outcome E A := ([], inl (SystemExit code)).
Definition raise {E A} (e : exception) : outcome E A := ([], inl (Raised e)).

Notation "x <- c ;; k" := (bind c (fun x => k))
  (at level 61, c at next level, right associativity).
Notation "c ;; k" := (bind c (fun _ => k))
  (at level 61, right associativity).

Section Model.
Context {P : Platform}.

(** [a < b], for values that are not NaN. *)
Definition ltb (a b : num) : bool := negb (leb b a).

(** ** Python builtins *)

(** [sum(l)]: the entries added from the left, starting at [0]. *)
Definition py_sum (l : list num) : num := fold_left add l zero.

(** [max(a, b)]: the first argument is kept unless the second is strictly
    greater. *)
Definition py_max (a b : num) : num := if ltb a b then b else a.

(** ** pandas columns

    A column holding floats is a [list (option num)]; [None] is a missing
    entry (Python [None], stored as NaN in a float64 column). *)

Inductive dtype : Type := float64 | object.

Definition is_missing (o : option num) : bool :=
  match o with None => true | Some _ => false end.

(** [pd.DataFrame(points)] infers the type of each column from its values:
    a column in which some entry is a float becomes float64 with NaN for
    [None]; a column whose entries are all [None] stays an object column
    that holds the [None]s themselves. *)
Definition infer_dtype (col : list (option num)) : dtype :=
  if forallb is_missing col then object else float64.

Fixpoint dropna (col : list (option num)) : list num :=
  match col with
  | [] => []
  | Some x :: t => x :: dropna t
  | None :: t => dropna t
  end.

Definition maxn (a b : num) : num := if leb a b then b else a.
Definition minn (a b : num) : num := if leb b a then b else a.

(** [Series.max()] and [Series.min()] skip the missing entries and are NaN
    ([None] here) when nothing is left. *)
Definition series_max (col : list (option num)) : option num :=
  match dropna col with
  | [] => None
  | x :: t => Some (fold_left maxn t x)
  end.

Definition series_min (col : list (option num)) : option num :=
  match dropna col with
  | [] => None
  | x :: t => Some (fold_left minn t x)
  end.

(** [Series.cumsum()]: the first entry, then running sums. *)
Fixpoint cumsum_from (acc : num) (l : list num) : list num :=
  match l with
  | [] => []
  | x :: t => add acc x :: cumsum_from (add acc x) t
  end.

Definition cumsum (l : list num) : list num :=
  match l with
  | [] => []
  | x :: t => x :: cumsum_from x t
  end.

(** The subtraction [Series.diff()] does on two entries: NaN when either
    one is missing. *)
Definition delta (prev cur : option num) : option num :=
  match prev, cur with
  | Some a, Some b => Some (sub b a)
  | _, _ => None
  end.

Fixpoint diff_from (prev : option num) (col : list (option num))
  : list (option num) :=
  match col with
  | [] => []
  | cur :: t => delta prev cur :: diff_from cur t
  end.

(** [Series.diff()]: NaN in the first row, then each entry minus the one
    before it.  On a float64 column NaN propagates.  On an object column
    the entries are subtracted as Python objects, and [None - None] raises
    [TypeError]; with a single row nothing is subtracted. *)
Definition series_diff (col : list (option num))
  : exception + list (option num) :=
  match col with
  | [] => inr []
  | first :: rest =>
      match infer_dtype col, rest with
      | object, _ :: _ => inl TypeError
      | _, _ => inr (None :: diff_from first rest)
      end
  end.

(** [Series.fillna(0)]. *)
Definition fillna0 (col : list (option num)) : list num :=
  map (fun o => match o with Some x => x | None => zero end) col.

(** [Series.clip(lower=0)]: entries below [0] become [0]. *)
Definition clip0 (x : num) : num := if leb zero x then x else zero.

Definition clip_lower0 (col : list num) : list num := map clip0 col.

(** [Series.sum()] of a column without missing entries. *)
Definition series_sum (col : list num) : num := fold_left add col zero.

(** ** The track *)

(** A point of the GPX file, and the dictionary [extract_track_data] makes
    of it.  The elevation is [None] when the point has no [<ele>] element;
    an element that holds NaN is not modelled. *)
Record TrackPoint : Type := mkPoint {
  latitude : num;
  longitude : num;
  elevation : option num;
  time : option Z
}.

(** [track_data]: the rows built from the points, and the two columns
    [calculate_metrics] adds. *)
Record DataFrame : Type := mkFrame {
  rows : list TrackPoint;
  distance : option (list num);
  cumulative_distance : option (list num)
}.

Definition GPX : Type := list (list (list TrackPoint)).
  (* tracks, their segments, their points *)

Record GPXAnalyzer : Type := mkAnalyzer {
  file_path : string;
  gpx : option GPX;
  track_data : option DataFrame;
  total_distance : num;
  max_elevation : option (option num);   (* outer [None]: attribute not set *)
  min_elevation : option (option num);
  elevation_gain : option num
}.

(** [__init__]. *)
Definition init (path : string) : GPXAnalyzer :=
  {| file_path := path; gpx := None; track_data := None;
     total_distance := zero; max_elevation := None; min_elevation := None;
     elevation_gain := None |}.

(** ** [calculate_metrics] *)

(** [[geodesic(coords[i], coords[i+1]).meters for i in range(len(coords)-1)]]. *)
Fixpoint step_distances (coords : list (num * num)) : list num :=
  match coords with
  | [] => []
  | p :: t =>
      match t with
      | [] => []
      | q :: _ => geodesic p q :: step_distances t
      end
  end.

Definition coords_of (df : DataFrame) : list (num * num) :=
  combine (map latitude (rows df)) (map longitude (rows df)).

Definition elevations (df : DataFrame) : list (option num) :=
  map elevation (rows df).

(** The method assigns its results one after the other, so an exception
    leaves the earlier assignments in place: the result is the analyzer as
    the call leaves it, and the exception raised, if any. *)
Definition calculate_metrics (self : GPXAnalyzer)
  : GPXAnalyzer * option exception :=
  match track_data self with
  | None => (self, Some TypeError)
  | Some df =>
      let coords := coords_of df in
      let distances := step_distances coords in
      match rows df with
      | [] =>
          (* a frame built from no point has no column to read *)
          (self, Some KeyError)
      | _ :: _ =>
          let dist_col := zero :: distances in
          let df2 :=
            {| rows := rows df; distance := Some dist_col;
               cumulative_distance := Some (cumsum dist_col) |} in
          let self2 :=
            {| file_path := file_path self; gpx := gpx self;
               track_data := Some df2;
               total_distance := py_sum distances;
               max_elevation := Some (series_max (elevations df));
               min_elevation := Some (series_min (elevations df));
               elevation_gain := elevation_gain self |} in
          match series_diff (elevations df) with
          | inl e => (self2, Some e)
          | inr d =>
              let gain :=
                py_max zero (series_sum (clip_lower0 (fillna0 d))) in
              ({| file_path := file_path self; gpx := gpx self;
                  track_data := Some df2;
                  total_distance := py_sum distances;
                  max_elevation := Some (series_max (elevations df));
                  min_elevation := Some (series_min (elevations df));
                  elevation_gain := Some gain |}, None)
          end
      end
  end.

(** ** The pipeline and what it shows

    Everything the process lets the outside see is an event: a line on the
    console, the map document, the browser and the chart window. *)

Inductive line : Type :=
| NotAFile                              (* the path is not a file *)
| FileMissing (path : string)           (* the file was not found *)
| LoadFailed (e : exception)            (* error while loading the file *)
| TotalDistanceLine (v : num)
| MaxElevationLine (v : option num)
| MinElevationLine (v : option num)
| ElevationGainLine (v : num)
| MapSaved (name : string).

Inductive event : Type :=
| Print (l : line)
| Traceback (e : exception)     (* the interpreter reports an uncaught exception *)
| SaveMap (name : string) (path : list (num * num))
| OpenBrowser (name : string)
| ShowChart (xs : list num) (ys : list (option num)).

Definition run (A : Type) : Type := outcome event A.

Definition print (l : line) : run unit := emit (Print l).

(** What the file system and [gpxpy.parse] make of a path. *)
Inductive read_result : Type :=
| Missing                     (* [open] raises [FileNotFoundError] *)
| Broken                      (* [open] or the parser raises something else *)
| Parsed (g : GPX).

Record World : Type := mkWorld {
  isfile : string -> bool;
  read : string -> read_result
}.

Definition set_gpx (self : GPXAnalyzer) (g : GPX) : GPXAnalyzer :=
  {| file_path := file_path self; gpx := Some g;
     track_data := track_data self; total_distance := total_distance self;
     max_elevation := max_elevation self; min_elevation := min_elevation self;
     elevation_gain := elevation_gain self |}.

Definition set_track_data (self : GPXAnalyzer) (df : DataFrame)
  : GPXAnalyzer :=
  {| file_path := file_path self; gpx := gpx self;
     track_data := Some df; total_distance := total_distance self;
     max_elevation := max_elevation self; min_elevation := min_elevation self;
     elevation_gain := elevation_gain self |}.

(** [load_gpx_file]: the [ValueError] for a file without tracks is raised
    inside the [try] and caught by [except Exception]. *)
Definition load_gpx_file (w : World) (self : GPXAnalyzer) : run GPXAnalyzer :=
  match read w (file_path self) with
  | Missing => print (FileMissing (file_path self)) ;; exit 1
  | Broken => print (LoadFailed ParserError) ;; exit 1
  | Parsed g =>
      match g with
      | [] => print (LoadFailed (ValueError NoTracks)) ;; exit 1
      | _ :: _ => ret (set_gpx self g)
      end
  end.

(** [extract_track_data]: all points of all segments of all tracks, in file
    order. *)
Definition extract_track_data (self : GPXAnalyzer) : run GPXAnalyzer :=
  match gpx self with
  | None => raise AttributeError
  | Some g =>
      let points := List.concat (List.concat g) in
      let df := {| rows := points; distance := None;
                   cumulative_distance := None |} in
      match points with
      | [] => raise (ValueError NoPoints)
      | _ :: _ => ret (set_track_data self df)
      end
  end.

Definition calculate_metrics_run (self : GPXAnalyzer) : run GPXAnalyzer :=
  match calculate_metrics self with
  | (_, Some e) => raise e
  | (self', None) => ret self'
  end.

Definition map_file : string := ("track_map.html")%string.

Definition visualize_track_on_map (self : GPXAnalyzer) : run unit :=
  match track_data self with
  | None => raise AttributeError
  | Some df =>
      match rows df with
      | [] => raise IndexError
      | _ :: _ =>
          emit (SaveMap map_file (coords_of df)) ;;
          print (MapSaved map_file) ;;
          emit (OpenBrowser map_file)
      end
  end.

Definition plot_elevation_profile (self : GPXAnalyzer) : run unit :=
  match track_data self with
  | None => raise TypeError
  | Some df =>
      match cumulative_distance df with
      | None => raise KeyError
      | Some xs => emit (ShowChart xs (elevations df))
      end
  end.

Definition run_analysis (w : World) (self : GPXAnalyzer) : run unit :=
  self <- load_gpx_file w self ;;
  self <- extract_track_data self ;;
  self <- calculate_metrics_run self ;;
  print (TotalDistanceLine (total_distance self)) ;;
  match max_elevation self, min_elevation self, elevation_gain self with
  | Some hi, Some lo, Some gain =>
      print (MaxElevationLine hi) ;;
      print (MinElevationLine lo) ;;
      print (ElevationGainLine gain) ;;
      visualize_track_on_map self ;;
      plot_elevation_profile self
  | _, _, _ => raise AttributeError
  end.

(** The script: [path] is what the user typed, stripped. *)
Definition main (w : World) (path : string) : run unit :=
  if isfile w path then run_analysis w (init path)
  else print NotAFile ;; exit 1.

(** The process as the outside sees it: what it showed, and its exit
    status.  An uncaught exception is reported by the interpreter, which
    then exits with status 1. *)
Definition process (w : World) (path : string) : list event * Z :=
  match main w path with
  | (out, inr _) => (out, 0%Z)
  | (out, inl (SystemExit code)) => (out, code)
  | (out, inl (Raised e)) => (out ++ [Traceback e], 1%Z)
  end.

(** A diagnostic tells the user what went wrong; every other event is part
    of the report. *)
Definition is_diagnostic (e : event) : bool :=
  match e with
  | Print NotAFile | Print (FileMissing _) | Print (LoadFailed _)
  | Traceback _ => true
  | _ => false
  end.

(** The three failures of a run: the path leads to no file, the file is
    not a track file, or the file holds no track or no point. *)
Inductive failure (w : World) (path : string) : Prop :=
| NotFound_path : isfile w path = false -> failure w path
| NotFound_open : read w path = Missing -> failure w path
| ParseError : read w path = Broken -> failure w path
| EmptyTrack_tracks : read w path = Parsed [] -> failure w path
| EmptyTrack_points (g : GPX) :
    read w path = Parsed g -> List.concat (List.concat g) = [] ->
    failure w path.

(** A run that aborted: a diagnostic, nothing but diagnostics, and a
    non-zero exit status. *)
Definition aborted (r : list event * Z) : Prop :=
  fst r <> [] /\ forallb is_diagnostic (fst r) = true /\ snd r <> 0%Z.

(** A run that completed: the four lines of the summary, the map document
    and its notice, the browser and the chart, and exit status [0]. *)
Definition completed (r : list event * Z) : Prop :=
  exists total hi lo gain path xs ys,
    fst r = [Print (TotalDistanceLine total); Print (MaxElevationLine hi);
             Print (MinElevationLine lo); Print (ElevationGainLine gain);
             SaveMap map_file path; Print (MapSaved map_file);
             OpenBrowser map_file; ShowChart xs ys] /\
    snd r = 0%Z.

(** ** Reference definitions

    The frame [calculate_metrics] leaves behind, whether or not its last
    statement raises. *)
Definition with_distances (df : DataFrame) : DataFrame :=
  {| rows := rows df;
     distance := Some (zero :: step_distances (coords_of df));
     cumulative_distance :=
       Some (cumsum (zero :: step_distances (coords_of df))) |}.

(** The analyzer once the distances and the extrema are stored, with the
    given elevation gain. *)
Definition stored (self : GPXAnalyzer) (df : DataFrame) (gain : option num)
  : GPXAnalyzer :=
  {| file_path := file_path self; gpx := gpx self;
     track_data := Some (with_distances df);
     total_distance := py_sum (step_distances (coords_of df));
     max_elevation := Some (series_max (elevations df));
     min_elevation := Some (series_min (elevations df));
     elevation_gain := gain |}.

(** The elevation gain as the specification words it: over consecutive
    pairs of points, [max(0, delta)] where both elevations are present, and
    nothing where one is missing. *)
Fixpoint positive_deltas_from (prev : option num) (col : list (option num))
  : list num :=
  match col with
  | [] => []
  | cur :: t =>
      match prev, cur with
      | Some a, Some b => py_max zero (sub b a) :: positive_deltas_from cur t
      | _, _ => positive_deltas_from cur t
      end
  end.

Definition positive_deltas (col : list (option num)) : list num :=
  match col with
  | [] => []
  | first :: rest => positive_deltas_from first rest
  end.

Definition elevation_gain_spec (col : list (option num)) : num :=
  py_sum (positive_deltas col).

(** An analyzer that has loaded the given points. *)
Definition analyzer_on (path : string) (points : list TrackPoint)
  : GPXAnalyzer :=
  set_track_data (init path)
    {| rows := points; distance := None; cumulative_distance := None |}.

(** The frame [pd.DataFrame(points)] builds. *)
Definition frame_of (points : list TrackPoint) : DataFrame :=
  {| rows := points; distance := None; cumulative_distance := None |}.

(** The number of points in a parsed file, over all tracks and segments. *)
Definition point_count (g : GPX) : nat :=
  list_sum (map (fun track => list_sum (map (@length TrackPoint) track)) g).

(** The pair [(latitude, longitude)] of a point. *)
Definition coord (p : TrackPoint) : num * num := (latitude p, longitude p).

(** Everything a completed run shows for the given frame and gain. *)
Definition report (df : DataFrame) (gain : num) : list event :=
  [Print (TotalDistanceLine (py_sum (step_distances (coords_of df))));
   Print (MaxElevationLine (series_max (elevations df)));
   Print (MinElevationLine (series_min (elevations df)));
   Print (ElevationGainLine gain);
   SaveMap map_file (coords_of df);
   Print (MapSaved map_file);
   OpenBrowser map_file;
   ShowChart (cumsum (zero :: step_distances (coords_of df))) (elevations df)].

End Model.

(** ** The analyzer in its environment

    The definitions above take the track of the specification, whose points
    lie on the globe, and a desktop on which documents can be written and
    windows opened.  The code itself reads whatever the file holds and runs
    wherever it is started: [geopy] rejects some points, and saving the map
    or showing the chart can fail.  The definitions below add both. *)

(** Which points [geopy] accepts: [Point(latitude, longitude)] is built when
    the latitude lies in [-90, 90] and both numbers are finite, and raises
    [ValueError] otherwise. *)
Class Geopy {P : Platform} : Type := {
  accepts : num * num -> bool
}.

(** What the presenters raise, if they raise: [visualize_track_on_map] up
    to [m.save(map_file)], [webbrowser.open], and [plot_elevation_profile]
    up to [plt.show()]. *)
Record Desktop : Type := mkDesktop {
  save_fault : option exception;
  browser_fault : option exception;
  show_fault : option exception
}.

Definition working_desktop : Desktop :=
  {| save_fault := None; browser_fault := None; show_fault := None |}.

Section Environment.
Context {P : Platform} {G : Geopy}.

(** Line 57 with [geodesic] as it is: the pairs of neighbours are taken in
    order, and the first point that is not accepted ends the method. *)
Fixpoint step_distances_geopy (coords : list (num * num))
  : exception + list num :=
  match coords with
  | [] => inr []
  | p :: t =>
      match t with
      | [] => inr []
      | q :: _ =>
          if accepts p && accepts q then
            match step_distances_geopy t with
            | inl e => inl e
            | inr ds => inr (geodesic p q :: ds)
            end
          else inl (ValueError BadCoordinate)
      end
  end.

(** All points of the frame are accepted. *)
Definition accepted (df : DataFrame) : bool :=
  forallb accepts (coords_of df).

(** [calculate_metrics] with that line: an exception on line 57 comes
    before the first assignment, so nothing is stored. *)
Definition calculate_metrics_geopy (self : GPXAnalyzer)
  : GPXAnalyzer * option exception :=
  match track_data self with
  | None => (self, Some TypeError)
  | Some df =>
      match rows df with
      | [] => (self, Some KeyError)
      | _ :: _ =>
          match step_distances_geopy (coords_of df) with
          | inl e => (self, Some e)
          | inr _ => calculate_metrics self
          end
      end
  end.

Definition calculate_metrics_geopy_run (self : GPXAnalyzer)
  : run GPXAnalyzer :=
  match calculate_metrics_geopy self with
  | (_, Some e) => raise e
  | (self', None) => ret self'
  end.

(** An effect that the desktop may refuse. *)
Definition attempt (fault : option exception) (e : event) : run unit :=
  match fault with
  | Some x => raise x
  | None => emit e
  end.

(** [visualize_track_on_map]: the map is built and saved, the notice
    printed, the browser opened. *)
Definition visualize_track_on_map_on (d : Desktop) (self : GPXAnalyzer)
  : run unit :=
  match track_data self with
  | None => raise AttributeError
  | Some df =>
      match rows df with
      | [] => raise IndexError
      | _ :: _ =>
          attempt (save_fault d) (SaveMap map_file (coords_of df)) ;;
          print (MapSaved map_file) ;;
          attempt (browser_fault d) (OpenBrowser map_file)
      end
  end.

(** [plot_elevation_profile]: the chart is drawn and shown. *)
Definition plot_elevation_profile_on (d : Desktop) (self : GPXAnalyzer)
  : run unit :=
  match track_data self with
  | None => raise TypeError
  | Some df =>
      match cumulative_distance df with
      | None => raise KeyError
      | Some xs => attempt (show_fault d) (ShowChart xs (elevations df))
      end
  end.

Definition run_analysis_on (d : Desktop) (w : World) (self : GPXAnalyzer)
  : run unit :=
  self <- load_gpx_file w self ;;
  self <- extract_track_data self ;;
  self <- calculate_metrics_geopy_run self ;;
  print (TotalDistanceLine (total_distance self)) ;;
  match max_elevation self, min_elevation self, elevation_gain self with
  | Some hi, Some lo, Some gain =>
      print (MaxElevationLine hi) ;;
      print (MinElevationLine lo) ;;
      print (ElevationGainLine gain) ;;
      visualize_track_on_map_on d self ;;
      plot_elevation_profile_on d self
  | _, _, _ => raise AttributeError
  end.

Definition main_on (d : Desktop) (w : World) (path : string) : run unit :=
  if isfile w path then run_analysis_on d w (init path)
  else print NotAFile ;; exit 1.

Definition process_on (d : Desktop) (w : World) (path : string)
  : list event * Z :=
  match main_on d w path with
  | (out, inr _) => (out, 0%Z)
  | (out, inl (SystemExit code)) => (out, code)
  | (out, inl (Raised e)) => (out ++ [Traceback e], 1%Z)
  end.

(** The four lines of the summary, and what the map adds. *)
Definition summary (df : DataFrame) (gain : num) : list event :=
  [Print (TotalDistanceLine (py_sum (step_distances (coords_of df))));
   Print (MaxElevationLine (series_max (elevations df)));
   Print (MinElevationLine (series_min (elevations df)));
   Print (ElevationGainLine gain)].

Definition map_events (df : DataFrame) : list event :=
  [SaveMap map_file (coords_of df); Print (MapSaved map_file);
   OpenBrowser map_file].

(** The ways a run can end: before the summary, with one diagnostic;
    after the summary, when the map cannot be saved; after the map and its
    notice, when the browser cannot be opened; after the browser, when the
    chart cannot be shown; or with the whole report. *)
Inductive run_shape (d : Desktop) (r : list event * Z) : Prop :=
| Ends_early (e : event) :
    fst r = [e] -> is_diagnostic e = true -> snd r = 1%Z -> run_shape d r
| Ends_in_save (df : DataFrame) (gain : num) (x : exception) :
    save_fault d = Some x ->
    fst r = summary df gain ++ [Traceback x] -> snd r = 1%Z ->
    run_shape d r
| Ends_in_browser (df : DataFrame) (gain : num) (x : exception) :
    save_fault d = None -> browser_fault d = Some x ->
    fst r = summary df gain ++
            [SaveMap map_file (coords_of df); Print (MapSaved map_file);
             Traceback x] ->
    snd r = 1%Z -> run_shape d r
| Ends_in_show (df : DataFrame) (gain : num) (x : exception) :
    save_fault d = None -> browser_fault d = None ->
    show_fault d = Some x ->
    fst r = summary df gain ++ map_events df ++ [Traceback x] ->
    snd r = 1%Z -> run_shape d r
| Ends_well (df : DataFrame) (gain : num) :
    save_fault d = None -> browser_fault d = None ->
    show_fault d = None ->
    fst r = report df gain -> snd r = 0%Z -> run_shape d r.

(** What line 67 adds up, row by row, in the words of the specification:
    [0] for the first row and for a row next to a gap, and [max(0, delta)]
    where the row and the one before it both have an elevation. *)
Fixpoint row_gains_from (prev : option num) (col : list (option num))
  : list num :=
  match col with
  | [] => []
  | cur :: t =>
      match prev, cur with
      | Some a, Some b => py_max zero (sub b a)
      | _, _ => zero
      end :: row_gains_from cur t
  end.

Definition row_gains (col : list (option num)) : list num :=
  match col with
  | [] => []
  | first :: rest => zero :: row_gains_from first rest
  end.

End Environment.

(** ** Sample tracks on the integer platform *)

Definition zpoint (lat lon : Z) (ele : option Z) : @TrackPoint ZPlatform :=
  @mkPoint ZPlatform lat lon ele None.

(** Three points along the equator, climbing then descending. *)
Definition hill : list (@TrackPoint ZPlatform) :=
  [zpoint 0 0 (Some 100%Z); zpoint 0 10 (Some 150%Z); zpoint 0 20 (Some 120%Z)].

(** The same path, the middle point without elevation. *)
Definition gap : list (@TrackPoint ZPlatform) :=
  [zpoint 0 0 (Some 100%Z); zpoint 0 10 None; zpoint 0 20 (Some 120%Z)].

(** The first two points of [hill]. *)
Definition climb : list (@TrackPoint ZPlatform) :=
  [zpoint 0 0 (Some 100%Z); zpoint 0 10 (Some 150%Z)].

(** Tracks recorded without any elevation. *)
Definition bare_pair : list (@TrackPoint ZPlatform) :=
  [zpoint 0 0 None; zpoint 0 10 None].

Definition bare_triple : list (@TrackPoint ZPlatform) :=
  [zpoint 0 0 None; zpoint 0 10 None; zpoint 5 10 None].

Definition bare_walk : list (@TrackPoint ZPlatform) :=
  [zpoint 0 0 None; zpoint 3 0 None; zpoint 3 4 None; zpoint 0 4 None].

Definition track_file : string := ("track.gpx")%string.

(** A file system with one readable file, and a parser that finds in it a
    single track with a single segment without points. *)
Definition pointless_world : @World ZPlatform :=
  {| isfile := fun _ => true; read := fun _ => Parsed [[[]]] |}.

(** The same, the segment holding the given points. *)
Definition world_of (points : list (@TrackPoint ZPlatform))
  : @World ZPlatform :=
  {| isfile := fun _ => true; read := fun _ => Parsed [[points]] |}.

(** A path that is no file, and a file that does not parse. *)
Definition no_file_world : @World ZPlatform :=
  {| isfile := fun _ => false; read := fun _ => Missing |}.

Definition broken_world : @World ZPlatform :=
  {| isfile := fun _ => true; read := fun _ => Broken |}.

(** The points of [hill] in one segment, in two segments of one track, and
    in two tracks. *)
Definition hill_in_two_segments : @World ZPlatform :=
  {| isfile := fun _ => true;
     read := fun _ => Parsed [[climb; [zpoint 0 20 (Some 120%Z)]]] |}.

Definition hill_in_two_tracks : @World ZPlatform :=
  {| isfile := fun _ => true;
     read := fun _ => Parsed [[climb]; [[zpoint 0 20 (Some 120%Z)]]] |}.

(** [geopy] on the integer platform: latitudes from -90 to 90. *)
Definition on_the_globe (c : Z * Z) : bool :=
  (Z.leb (-90) (fst c) && Z.leb (fst c) 90)%bool.

Definition ZGeopy : @Geopy ZPlatform :=
  @Build_Geopy ZPlatform on_the_globe.

(** A track whose first point lies off the globe. *)
Definition off_the_globe : list (@TrackPoint ZPlatform) :=
  [zpoint 91 0 (Some 100%Z); zpoint 0 0 (Some 150%Z)].

(** A desktop whose working directory cannot be written, and one without
    a display. *)
Definition read_only_desktop : Desktop :=
  {| save_fault := Some OSError; browser_fault := None;
     show_fault := None |}.

Definition headless_desktop : Desktop :=
  {| save_fault := None; browser_fault := None;
     show_fault := Some OSError |}.

(** * Properties *)

(** ** Columns and sums *)

Section ColumnFacts.
Context {P : Platform}.

Lemma cumsum_from_length (l : list num) :
  forall acc, length (cumsum_from acc l) = length l.
Proof.
  induction l as [|x t IH]; intros acc; simpl; [reflexivity|].
  now rewrite IH.
Qed.

Lemma cumsum_length (l : list num) : length (cumsum l) = length l.
Proof.
  destruct l as [|x t]; simpl; [reflexivity|].
  now rewrite cumsum_from_length.
Qed.

(** Each running sum is the one before it plus the entry of its row. *)
Lemma cumsum_from_step (l : list num) :
  forall acc i, i < length l ->
    nth (S i) (acc :: cumsum_from acc l) zero =
    add (nth i (acc :: cumsum_from acc l) zero) (nth i l zero).
Proof.
  induction l as [|x t IH]; intros acc i Hi; simpl in Hi; [lia|].
  destruct i as [|j].
  - reflexivity.
  - change (nth (S j) (add acc x :: cumsum_from (add acc x) t) zero =
            add (nth j (add acc x :: cumsum_from (add acc x) t) zero)
                (nth j t zero)).
    apply IH. lia.
Qed.

(** The last running sum is the left fold over the whole column. *)
Lemma cumsum_from_last (l : list num) :
  forall acc, last (acc :: cumsum_from acc l) zero = fold_left add l acc.
Proof.
  induction l as [|x t IH]; intros acc; [reflexivity|].
  exact (IH (add acc x)).
Qed.

Lemma step_distances_length (coords : list (num * num)) :
  length (step_distances coords) = length coords - 1.
Proof.
  induction coords as [|p t IH]; [reflexivity|].
  destruct t as [|q t']; [reflexivity|].
  change (step_distances (p :: q :: t'))
    with (geodesic p q :: step_distances (q :: t')).
  simpl length in *. rewrite IH. lia.
Qed.

Lemma coords_of_length (df : DataFrame) :
  length (coords_of df) = length (rows df).
Proof.
  unfold coords_of. rewrite length_combine, !length_map. lia.
Qed.

Lemma dropna_In (col : list (option num)) (x : num) :
  In x (dropna col) <-> In (Some x) col.
Proof.
  induction col as [|[y|] t IH]; simpl.
  - tauto.
  - rewrite IH. split; intros [H|H]; auto; left; congruence.
  - rewrite IH. split; [auto|]. intros [H|H]; [discriminate|assumption].
Qed.

End ColumnFacts.

(** ** What [calculate_metrics] stores *)

Section MetricsFacts.
Context {P : Platform}.

Lemma calculate_metrics_unfold (self : GPXAnalyzer) (df : DataFrame) :
  track_data self = Some df -> rows df <> [] ->
  calculate_metrics self =
  match series_diff (elevations df) with
  | inl e => (stored self df (elevation_gain self), Some e)
  | inr d =>
      (stored self df
         (Some (py_max zero (series_sum (clip_lower0 (fillna0 d))))), None)
  end.
Proof.
  intros Hdf Hrows. unfold calculate_metrics. rewrite Hdf.
  destruct (rows df) as [|p t] eqn:E; [congruence|].
  unfold stored, with_distances. rewrite E.
  destruct (series_diff (elevations df)); reflexivity.
Qed.

Lemma calculate_metrics_distances (self : GPXAnalyzer) (df : DataFrame) :
  track_data self = Some df -> rows df <> [] ->
  track_data (fst (calculate_metrics self)) = Some (with_distances df) /\
  total_distance (fst (calculate_metrics self)) =
    py_sum (step_distances (coords_of df)).
Proof.
  intros Hdf Hrows. rewrite (calculate_metrics_unfold self Hdf Hrows).
  destruct (series_diff (elevations df)); split; reflexivity.
Qed.

Lemma calculate_metrics_extrema (self : GPXAnalyzer) (df : DataFrame) :
  track_data self = Some df -> rows df <> [] ->
  max_elevation (fst (calculate_metrics self)) =
    Some (series_max (elevations df)) /\
  min_elevation (fst (calculate_metrics self)) =
    Some (series_min (elevations df)).
Proof.
  intros Hdf Hrows. rewrite (calculate_metrics_unfold self Hdf Hrows).
  destruct (series_diff (elevations df)); split; reflexivity.
Qed.

(** The last statement decides how the call ends. *)
Lemma calculate_metrics_gain (self : GPXAnalyzer) (df : DataFrame) :
  track_data self = Some df -> rows df <> [] ->
  match series_diff (elevations df) with
  | inl e =>
      snd (calculate_metrics self) = Some e /\
      elevation_gain (fst (calculate_metrics self)) = elevation_gain self
  | inr d =>
      snd (calculate_metrics self) = None /\
      elevation_gain (fst (calculate_metrics self)) =
        Some (py_max zero (series_sum (clip_lower0 (fillna0 d))))
  end.
Proof.
  intros Hdf Hrows. rewrite (calculate_metrics_unfold self Hdf Hrows).
  destruct (series_diff (elevations df)); split; reflexivity.
Qed.

End MetricsFacts.

(** ** Distances *)

Section DistanceClaims.
Context {P : Platform}.

(** C3: for a track of [n] points the cumulative-distance column has [n]
    entries, starts at [0], each later entry is the one before it plus the
    step distance leading to its point, and [total_distance] is the sum of
    the [n - 1] step distances. *)
Theorem cumulative_distance_prefix_sums
    (self : GPXAnalyzer) (df : DataFrame) :
  track_data self = Some df -> rows df <> [] ->
  let n := length (rows df) in
  let steps := step_distances (coords_of df) in
  let self' := fst (calculate_metrics self) in
  exists df' cum,
    track_data self' = Some df' /\
    distance df' = Some (zero :: steps) /\
    cumulative_distance df' = Some cum /\
    length steps = n - 1 /\
    length cum = n /\
    nth_error cum 0 = Some zero /\
    (forall i, 1 <= i <= n - 1 ->
       nth i cum zero = add (nth (i - 1) cum zero) (nth (i - 1) steps zero)) /\
    total_distance self' = py_sum steps.
Proof.
  intros Hdf Hrows n steps self'.
  destruct (calculate_metrics_distances self Hdf Hrows) as [Hframe Htotal].
  assert (Hsteps : length steps = n - 1).
  { unfold steps, n. now rewrite step_distances_length, coords_of_length. }
  assert (Hn : 1 <= n).
  { unfold n. destruct (rows df); [congruence|simpl; lia]. }
  exists (with_distances df), (cumsum (zero :: steps)).
  repeat split; try assumption; try reflexivity.
  - rewrite cumsum_length. simpl. lia.
  - intros i [Hlo Hhi].
    destruct i as [|j]; [lia|].
    replace (S j - 1) with j by lia.
    apply (cumsum_from_step steps zero). lia.
Qed.

(** C8: the step distances, and with them the total and the cumulative
    distances, are computed from latitude and longitude alone: two tracks
    with the same latitudes and longitudes get the same distance columns
    and the same total, whatever their elevations. *)
Theorem distances_ignore_elevation
    (a b : GPXAnalyzer) (dfa dfb : DataFrame) :
  track_data a = Some dfa -> track_data b = Some dfb ->
  rows dfa <> [] ->
  map latitude (rows dfa) = map latitude (rows dfb) ->
  map longitude (rows dfa) = map longitude (rows dfb) ->
  step_distances (coords_of dfa) = step_distances (coords_of dfb) /\
  option_map distance (track_data (fst (calculate_metrics a))) =
    option_map distance (track_data (fst (calculate_metrics b))) /\
  option_map cumulative_distance (track_data (fst (calculate_metrics a))) =
    option_map cumulative_distance (track_data (fst (calculate_metrics b))) /\
  total_distance (fst (calculate_metrics a)) =
    total_distance (fst (calculate_metrics b)).
Proof.
  intros Ha Hb Hrows Hlat Hlon.
  assert (Hrows' : rows dfb <> []).
  { intro E. rewrite E in Hlat. destruct (rows dfa); [congruence|discriminate]. }
  assert (Hc : coords_of dfa = coords_of dfb).
  { unfold coords_of. now rewrite Hlat, Hlon. }
  destruct (calculate_metrics_distances a Ha Hrows) as [Fa Ta].
  destruct (calculate_metrics_distances b Hb Hrows') as [Fb Tb].
  rewrite Fa, Fb, Ta, Tb. unfold with_distances. simpl.
  rewrite Hc. repeat split; reflexivity.
Qed.

End DistanceClaims.

Lemma cumulative_distance_prefix_sums_witness :
  exists df' cum,
    track_data (fst (calculate_metrics (analyzer_on track_file hill)))
      = Some df' /\
    distance df' = Some [0; 10; 10]%Z /\
    cumulative_distance df' = Some cum /\
    cum = [0; 10; 20]%Z /\
    total_distance (fst (calculate_metrics (analyzer_on track_file hill)))
      = 20%Z.
Proof.
  destruct (@cumulative_distance_prefix_sums ZPlatform
              (analyzer_on track_file hill)
              {| rows := hill; distance := None; cumulative_distance := None |}
              eq_refl ltac:(discriminate))
    as (df' & cum & H1 & H2 & H3 & _ & _ & _ & _ & H8).
  exists df', cum. repeat split; try assumption.
  vm_compute in H1. injection H1 as <-. vm_compute in H3.
  now injection H3 as <-.
Defined.

Lemma distances_ignore_elevation_witness :
  total_distance (fst (calculate_metrics (analyzer_on track_file hill))) =
  total_distance (fst (calculate_metrics (analyzer_on track_file gap))).
Proof.
  apply (@distances_ignore_elevation ZPlatform
           (analyzer_on track_file hill) (analyzer_on track_file gap)
           {| rows := hill; distance := None; cumulative_distance := None |}
           {| rows := gap; distance := None; cumulative_distance := None |}
           eq_refl eq_refl ltac:(discriminate) eq_refl eq_refl).
Defined.

(** ** The analyzer as state *)

Section StateClaims.
Context {P : Platform}.

(** C2, as amended: [calculate_metrics] never touches the points (the rows
    of the track with their latitude, longitude, elevation and time), the
    parsed file or the path.  It is not free of side effects: it stores its
    results in the analyzer and adds two columns to the track's frame. *)
Theorem calculate_metrics_preserves_points (self : GPXAnalyzer) :
  let self' := fst (calculate_metrics self) in
  option_map rows (track_data self') = option_map rows (track_data self) /\
  gpx self' = gpx self /\
  file_path self' = file_path self.
Proof.
  destruct (track_data self) as [df|] eqn:Hdf.
  - destruct (rows df) as [|p t] eqn:E.
    + unfold calculate_metrics. rewrite Hdf, E. cbn. rewrite Hdf. auto.
    + rewrite (calculate_metrics_unfold self Hdf) by congruence.
      destruct (series_diff (elevations df)); cbn; auto.
  - unfold calculate_metrics. rewrite Hdf. cbn. rewrite Hdf. auto.
Qed.

(** C10: a second call of [calculate_metrics] leaves the analyzer exactly
    as the first call left it, and ends the same way: total distance, both
    distance columns, the elevation extrema and the elevation gain are
    those of the first call. *)
Theorem calculate_metrics_idempotent (self : GPXAnalyzer) :
  calculate_metrics (fst (calculate_metrics self)) = calculate_metrics self.
Proof.
  destruct (track_data self) as [df|] eqn:Hdf.
  - destruct (rows df) as [|p t] eqn:E.
    + unfold calculate_metrics. rewrite Hdf, E. cbn. now rewrite Hdf, E.
    + assert (Hrows : rows df <> []) by congruence.
      rewrite (calculate_metrics_unfold self Hdf Hrows).
      destruct (series_diff (elevations df)) as [e|d] eqn:D;
        cbn [fst];
        rewrite (@calculate_metrics_unfold P (stored self df _)
                   (with_distances df) eq_refl Hrows);
        change (elevations (with_distances df)) with (elevations df);
        rewrite D; reflexivity.
  - unfold calculate_metrics. rewrite Hdf. cbn. now rewrite Hdf.
Qed.

(** C9: the results depend on the latitudes, longitudes and elevations of
    the points and on nothing else.  Two analyzers whose tracks agree on
    these three columns end [calculate_metrics] the same way, with the same
    total distance, distance columns and extrema, and, when the call
    returns, with the same elevation gain. *)
Theorem calculate_metrics_deterministic
    (a b : GPXAnalyzer) (dfa dfb : DataFrame) :
  track_data a = Some dfa -> track_data b = Some dfb ->
  rows dfa <> [] ->
  map latitude (rows dfa) = map latitude (rows dfb) ->
  map longitude (rows dfa) = map longitude (rows dfb) ->
  map elevation (rows dfa) = map elevation (rows dfb) ->
  let ra := calculate_metrics a in
  let rb := calculate_metrics b in
  snd ra = snd rb /\
  total_distance (fst ra) = total_distance (fst rb) /\
  option_map distance (track_data (fst ra)) =
    option_map distance (track_data (fst rb)) /\
  option_map cumulative_distance (track_data (fst ra)) =
    option_map cumulative_distance (track_data (fst rb)) /\
  max_elevation (fst ra) = max_elevation (fst rb) /\
  min_elevation (fst ra) = min_elevation (fst rb) /\
  (snd ra = None ->
   elevation_gain (fst ra) = elevation_gain (fst rb) /\
   elevation_gain (fst ra) <> None).
Proof.
  intros Ha Hb Hrows Hlat Hlon Hele ra rb.
  assert (Hrows' : rows dfb <> []).
  { intro E. rewrite E in Hlat. destruct (rows dfa); [congruence|discriminate]. }
  assert (Hc : coords_of dfa = coords_of dfb).
  { unfold coords_of. now rewrite Hlat, Hlon. }
  assert (He : elevations dfa = elevations dfb) by exact Hele.
  destruct (calculate_metrics_distances a Ha Hrows) as [Fa Ta].
  destruct (calculate_metrics_distances b Hb Hrows') as [Fb Tb].
  destruct (calculate_metrics_extrema a Ha Hrows) as [Ma Na].
  destruct (calculate_metrics_extrema b Hb Hrows') as [Mb Nb].
  pose proof (calculate_metrics_gain a Ha Hrows) as Ga.
  pose proof (calculate_metrics_gain b Hb Hrows') as Gb.
  rewrite <- He in Gb.
  unfold ra, rb. rewrite Fa, Fb, Ta, Tb, Ma, Mb, Na, Nb.
  unfold with_distances. simpl. rewrite Hc, He.
  destruct (series_diff (elevations dfa)) as [e|d].
  - destruct Ga as [Ga _], Gb as [Gb _]. rewrite Ga, Gb.
    repeat split; try reflexivity; discriminate.
  - destruct Ga as [Ga Ga'], Gb as [Gb Gb']. rewrite Ga, Gb, Ga', Gb'.
    repeat split; try reflexivity. discriminate.
Qed.

(** C7: on a track of exactly one point the call returns with total
    distance [0], elevation gain [0], cumulative distances [[0]], and both
    extrema equal to the elevation of that point: its value when present,
    NaN when absent. *)
Theorem single_point_track
    (self : GPXAnalyzer) (df : DataFrame) (p : TrackPoint) :
  add zero zero = zero ->
  track_data self = Some df -> rows df = [p] ->
  let self' := fst (calculate_metrics self) in
  snd (calculate_metrics self) = None /\
  total_distance self' = zero /\
  option_map distance (track_data self') = Some (Some [zero]) /\
  option_map cumulative_distance (track_data self') = Some (Some [zero]) /\
  max_elevation self' = Some (elevation p) /\
  min_elevation self' = Some (elevation p) /\
  elevation_gain self' = Some zero.
Proof.
  intros H00 Hdf Hrows self'.
  assert (Hne : rows df <> []) by (rewrite Hrows; discriminate).
  assert (Hd : series_diff (elevations df) = inr [None]).
  { unfold elevations, series_diff, infer_dtype. rewrite Hrows. cbn.
    destruct (elevation p); reflexivity. }
  assert (Hgain : py_max zero
                    (series_sum (clip_lower0 (fillna0 [@None num]))) = zero).
  { unfold series_sum, clip_lower0, fillna0. cbn [map fold_left].
    unfold clip0, py_max.
    destruct (leb zero zero); rewrite H00; destruct (ltb zero zero);
      reflexivity. }
  unfold self'. rewrite (calculate_metrics_unfold self Hdf Hne), Hd, Hgain.
  unfold stored, with_distances, coords_of, elevations,
    series_max, series_min.
  rewrite Hrows. cbn.
  destruct (elevation p); repeat split; reflexivity.
Qed.

End StateClaims.

Lemma single_point_track_witness :
  calculate_metrics (analyzer_on track_file [zpoint 7 9 (Some 42%Z)]) =
  ({| file_path := track_file; gpx := None;
      track_data := Some {| rows := [zpoint 7 9 (Some 42%Z)];
                            distance := Some [0%Z];
                            cumulative_distance := Some [0%Z] |};
      total_distance := 0%Z;
      max_elevation := Some (Some 42%Z); min_elevation := Some (Some 42%Z);
      elevation_gain := Some 0%Z |}, None) /\
  elevation_gain
    (fst (calculate_metrics (analyzer_on track_file [zpoint 7 9 None])))
    = Some 0%Z.
Proof.
  split; [reflexivity|].
  apply (@single_point_track ZPlatform
           (analyzer_on track_file [zpoint 7 9 None])
           {| rows := [zpoint 7 9 None]; distance := None;
              cumulative_distance := None |}
           (zpoint 7 9 None) eq_refl eq_refl eq_refl).
Defined.

Lemma calculate_metrics_deterministic_witness :
  snd (calculate_metrics (analyzer_on track_file hill)) =
  snd (calculate_metrics
         (fst (calculate_metrics (analyzer_on ("other.gpx")%string hill)))).
Proof.
  apply (@calculate_metrics_deterministic ZPlatform
           (analyzer_on track_file hill)
           (fst (calculate_metrics (analyzer_on ("other.gpx")%string hill)))
           {| rows := hill; distance := None; cumulative_distance := None |}
           (with_distances
              {| rows := hill; distance := None; cumulative_distance := None |})
           eq_refl eq_refl ltac:(discriminate) eq_refl eq_refl eq_refl).
Defined.

(** C2, as stated, fails: the call changes the frame that holds the
    track, which gains the columns [distance] and [cumulative_distance]. *)
Lemma calculate_metrics_mutates_track_data :
  track_data (fst (calculate_metrics (analyzer_on track_file hill))) <>
  track_data (analyzer_on track_file hill).
Proof. vm_compute. discriminate. Qed.

(** ** Elevation

    The order and the sum are used through a few laws, all of them true of
    floats that are not NaN ([-0.0] and [0.0] counting as one value). *)

Section ElevationFacts.
Context {P : Platform}.

Hypothesis leb_total : forall a b, leb a b = true \/ leb b a = true.
Hypothesis leb_trans :
  forall a b c, leb a b = true -> leb b c = true -> leb a c = true.
Hypothesis leb_antisym :
  forall a b, leb a b = true -> leb b a = true -> a = b.
Hypothesis add_zero_r : forall a, add a zero = a.
Hypothesis add_nonneg :
  forall a b, leb zero a = true -> leb zero b = true ->
              leb zero (add a b) = true.

Lemma leb_refl (a : num) : leb a a = true.
Proof. destruct (leb_total a a); assumption. Qed.

Lemma maxn_ge_l (a b : num) : leb a (maxn a b) = true.
Proof.
  unfold maxn. destruct (leb a b) eqn:E; [assumption|apply leb_refl].
Qed.

Lemma maxn_ge_r (a b : num) : leb b (maxn a b) = true.
Proof.
  unfold maxn. destruct (leb a b) eqn:E; [apply leb_refl|].
  destruct (leb_total a b); congruence.
Qed.

Lemma minn_le_l (a b : num) : leb (minn a b) a = true.
Proof.
  unfold minn. destruct (leb b a) eqn:E; [assumption|apply leb_refl].
Qed.

Lemma minn_le_r (a b : num) : leb (minn a b) b = true.
Proof.
  unfold minn. destruct (leb b a) eqn:E; [apply leb_refl|].
  destruct (leb_total a b); congruence.
Qed.

Lemma fold_maxn_upper (t : list num) :
  forall x y, In y (x :: t) -> leb y (fold_left maxn t x) = true.
Proof.
  induction t as [|z t IH]; intros x y Hy.
  - destruct Hy as [<-|[]]. apply leb_refl.
  - cbn [fold_left]. destruct Hy as [<-|[<-|Hy]].
    + apply leb_trans with (maxn x z); [apply maxn_ge_l|].
      apply IH. now left.
    + apply leb_trans with (maxn x z); [apply maxn_ge_r|].
      apply IH. now left.
    + apply IH. now right.
Qed.

Lemma fold_minn_lower (t : list num) :
  forall x y, In y (x :: t) -> leb (fold_left minn t x) y = true.
Proof.
  induction t as [|z t IH]; intros x y Hy.
  - destruct Hy as [<-|[]]. apply leb_refl.
  - cbn [fold_left]. destruct Hy as [<-|[<-|Hy]].
    + apply leb_trans with (minn x z); [|apply minn_le_l].
      apply IH. now left.
    + apply leb_trans with (minn x z); [|apply minn_le_r].
      apply IH. now left.
    + apply IH. now right.
Qed.

Lemma fold_maxn_In (t : list num) :
  forall x, In (fold_left maxn t x) (x :: t).
Proof.
  induction t as [|z t IH]; intros x; [now left|].
  cbn [fold_left]. destruct (IH (maxn x z)) as [H|H].
  - rewrite <- H. unfold maxn. destruct (leb x z); [right|]; now left.
  - right. now right.
Qed.

Lemma fold_minn_In (t : list num) :
  forall x, In (fold_left minn t x) (x :: t).
Proof.
  induction t as [|z t IH]; intros x; [now left|].
  cbn [fold_left]. destruct (IH (minn x z)) as [H|H].
  - rewrite <- H. unfold minn. destruct (leb z x); [right|]; now left.
  - right. now right.
Qed.

(** [Series.max()] and [Series.min()] bound every present entry, and are
    themselves present entries. *)
Lemma series_extrema_bounds (col : list (option num)) (e : num) :
  In (Some e) col ->
  exists lo hi,
    series_min col = Some lo /\ series_max col = Some hi /\
    In (Some lo) col /\ In (Some hi) col /\
    leb lo e = true /\ leb e hi = true.
Proof.
  intros He. apply dropna_In in He.
  unfold series_min, series_max.
  destruct (dropna col) as [|x t] eqn:E; [destruct He|].
  exists (fold_left minn t x), (fold_left maxn t x).
  repeat split.
  - apply dropna_In. rewrite E. apply fold_minn_In.
  - apply dropna_In. rewrite E. apply fold_maxn_In.
  - now apply fold_minn_lower.
  - now apply fold_maxn_upper.
Qed.

(** Without any present entry both are NaN. *)
Lemma series_extrema_missing (col : list (option num)) :
  (forall o, In o col -> o = None) ->
  series_min col = None /\ series_max col = None.
Proof.
  intros Hall.
  assert (E : dropna col = []).
  { induction col as [|[x|] t IH]; [reflexivity| |].
    - discriminate (Hall (Some x) (or_introl eq_refl)).
    - simpl. apply IH. intros o Ho. apply Hall. now right. }
  unfold series_min, series_max. now rewrite E.
Qed.

(** On a track with a point, the stored minimum and maximum bound the
    elevation of every point that has one. *)
Lemma stored_extrema_bounds (self : GPXAnalyzer) (df : DataFrame) :
  track_data self = Some df -> rows df <> [] ->
  forall p e, In p (rows df) -> elevation p = Some e ->
  exists lo hi,
    min_elevation (fst (calculate_metrics self)) = Some (Some lo) /\
    max_elevation (fst (calculate_metrics self)) = Some (Some hi) /\
    leb lo e = true /\ leb e hi = true.
Proof.
  intros Hdf Hrows p e Hp He.
  destruct (calculate_metrics_extrema self Hdf Hrows) as [Hmax Hmin].
  assert (Hin : In (Some e) (elevations df)).
  { unfold elevations. rewrite <- He. now apply in_map. }
  destruct (series_extrema_bounds _ _ Hin)
    as (lo & hi & Slo & Shi & _ & _ & Llo & Lhi).
  exists lo, hi. rewrite Hmin, Hmax, Slo, Shi. auto.
Qed.

(** *** The gain *)

Lemma clip0_py_max (x : num) : clip0 x = py_max zero x.
Proof.
  unfold clip0, py_max, ltb.
  destruct (leb zero x) eqn:A, (leb x zero) eqn:B; cbn; try reflexivity.
  - symmetry. now apply leb_antisym.
  - destruct (leb_total zero x); congruence.
Qed.

Lemma py_max_nonneg (x : num) : leb zero (py_max zero x) = true.
Proof.
  unfold py_max, ltb. destruct (leb x zero) eqn:B; cbn;
    [apply leb_refl|].
  destruct (leb_total zero x); congruence.
Qed.

Lemma py_max_id (x : num) : leb zero x = true -> py_max zero x = x.
Proof.
  intros H. rewrite <- clip0_py_max. unfold clip0. now rewrite H.
Qed.

Lemma fold_add_nonneg (l : list num) :
  Forall (fun x => leb zero x = true) l ->
  forall acc, leb zero acc = true -> leb zero (fold_left add l acc) = true.
Proof.
  induction 1 as [|x t Hx _ IH]; intros acc Hacc; [assumption|].
  cbn [fold_left]. apply IH. now apply add_nonneg.
Qed.

Lemma positive_deltas_from_nonneg (col : list (option num)) :
  forall prev,
    Forall (fun x => leb zero x = true) (positive_deltas_from prev col).
Proof.
  induction col as [|cur t IH]; intros prev; [constructor|].
  cbn [positive_deltas_from].
  destruct prev, cur; try apply IH.
  constructor; [apply py_max_nonneg|apply IH].
Qed.

(** Row by row, the clipped and filled differences add up to what the
    positive deltas of the pairs with both elevations add up to. *)
Lemma diff_sum_positive_deltas (col : list (option num)) :
  forall prev acc,
    fold_left add (clip_lower0 (fillna0 (diff_from prev col))) acc =
    fold_left add (positive_deltas_from prev col) acc.
Proof.
  induction col as [|cur t IH]; intros prev acc; [reflexivity|].
  cbn [diff_from fillna0 clip_lower0 map fold_left positive_deltas_from].
  fold (fillna0 (diff_from cur t)). fold (clip_lower0 (fillna0 (diff_from cur t))).
  rewrite IH.
  destruct prev as [a|], cur as [b|]; cbn [delta];
    try (unfold clip0; rewrite leb_refl, add_zero_r; reflexivity).
  cbn [fold_left]. now rewrite clip0_py_max.
Qed.

(** Whenever [diff()] goes through, the stored gain is the gain of the
    specification. *)
Lemma stored_gain_is_spec (self : GPXAnalyzer) (df : DataFrame) d :
  track_data self = Some df -> rows df <> [] ->
  series_diff (elevations df) = inr d ->
  snd (calculate_metrics self) = None /\
  elevation_gain (fst (calculate_metrics self)) =
    Some (elevation_gain_spec (elevations df)).
Proof.
  intros Hdf Hrows Hd.
  pose proof (calculate_metrics_gain self Hdf Hrows) as G.
  rewrite Hd in G. destruct G as [G1 G2]. split; [assumption|].
  rewrite G2. f_equal.
  unfold series_diff in Hd.
  destruct (elevations df) as [|first rest] eqn:E.
  { unfold elevations in E. destruct (rows df); [congruence|discriminate]. }
  assert (Hd' : d = None :: diff_from first rest).
  { destruct (infer_dtype (first :: rest)), rest; congruence. }
  subst d. unfold series_sum, elevation_gain_spec, py_sum.
  cbn [fillna0 clip_lower0 map fold_left positive_deltas].
  fold (fillna0 (diff_from first rest)).
  fold (clip_lower0 (fillna0 (diff_from first rest))).
  unfold clip0 at 1. rewrite leb_refl, add_zero_r, diff_sum_positive_deltas.
  apply py_max_id. apply fold_add_nonneg; [|apply leb_refl].
  apply positive_deltas_from_nonneg.
Qed.

(** [diff()] goes through as soon as one elevation is present. *)
Lemma series_diff_present (col : list (option num)) (e : num) :
  In (Some e) col -> exists d, series_diff col = inr d.
Proof.
  intros He. unfold series_diff, infer_dtype.
  destruct col as [|first rest]; [destruct He|].
  assert (F : forallb is_missing (first :: rest) = false).
  { apply not_true_is_false. intro F.
    rewrite forallb_forall in F. now specialize (F _ He). }
  rewrite F. eauto.
Qed.

(** [diff()] raises exactly on two or more rows without any elevation. *)
Lemma series_diff_raises (col : list (option num)) :
  (exists e, series_diff col = inl e) <->
  (forall o, In o col -> o = None) /\ 2 <= length col.
Proof.
  unfold series_diff, infer_dtype.
  destruct col as [|first rest].
  { split; [intros [e He]; discriminate|cbn; lia]. }
  destruct (forallb is_missing (first :: rest)) eqn:F.
  - rewrite forallb_forall in F.
    assert (Hall : forall o, In o (first :: rest) -> o = None).
    { intros o Ho. specialize (F o Ho). now destruct o. }
    destruct rest as [|second rest'].
    + split; [intros [e He]; discriminate|cbn; lia].
    + split; [intros _; split; [exact Hall|cbn; lia]|eauto].
  - split; [intros [e He]; discriminate|].
    intros [Hall _]. exfalso.
    assert (F' : forallb is_missing (first :: rest) = true).
    { apply forallb_forall. intros o Ho. now rewrite (Hall o Ho). }
    congruence.
Qed.

(** On every track with an elevation somewhere the call returns, and
    the gain it stores is the gain of the specification: the sum, over
    consecutive points that both have an elevation, of the positive
    differences; a pair with a gap adds nothing.  Both sums are taken from
    the left here; [gain_adds_row_gains] below says the same without a
    word on the order. *)
Lemma gain_is_spec_with_elevation
    (self : GPXAnalyzer) (df : DataFrame) (p : TrackPoint) (e : num) :
  track_data self = Some df ->
  In p (rows df) -> elevation p = Some e ->
  snd (calculate_metrics self) = None /\
  elevation_gain (fst (calculate_metrics self)) =
    Some (elevation_gain_spec (elevations df)).
Proof.
  intros Hdf Hp He.
  assert (Hrows : rows df <> []) by (destruct (rows df); [destruct Hp|discriminate]).
  assert (Hin : In (Some e) (elevations df)).
  { unfold elevations. rewrite <- He. now apply in_map. }
  destruct (series_diff_present _ _ Hin) as [d Hd].
  exact (stored_gain_is_spec self Hdf Hrows Hd).
Qed.

End ElevationFacts.

(** ** Signs and monotonicity

    [geopy] returns lengths, which are never negative, and adding a
    non-negative float never decreases a float. *)

Section MonotonicityFacts.
Context {P : Platform}.

Hypothesis leb_total : forall a b, leb a b = true \/ leb b a = true.
Hypothesis geodesic_nonneg : forall p q, leb zero (geodesic p q) = true.
Hypothesis add_mono :
  forall a d, leb zero d = true -> leb a (add a d) = true.

Lemma step_distances_nonneg (coords : list (num * num)) :
  Forall (fun d => leb zero d = true) (step_distances coords).
Proof.
  induction coords as [|p t IH]; [constructor|].
  destruct t as [|q t']; [constructor|].
  change (step_distances (p :: q :: t'))
    with (geodesic p q :: step_distances (q :: t')).
  constructor; [apply geodesic_nonneg|exact IH].
Qed.

Lemma cumsum_nondecreasing (l : list num) :
  Forall (fun d => leb zero d = true) l ->
  forall i, i < length l ->
    leb (nth i (cumsum (zero :: l)) zero)
        (nth (S i) (cumsum (zero :: l)) zero) = true.
Proof.
  intros Hl i Hi. cbn [cumsum].
  rewrite (cumsum_from_step l zero Hi).
  apply add_mono.
  rewrite Forall_forall in Hl. apply Hl. now apply nth_In.
Qed.

(** On every track with a point the step distances are not negative,
    the cumulative distances never decrease, and the last of them is the
    total distance when [sum] adds from the left as [cumsum] does. *)
Lemma stored_distances_monotone (self : GPXAnalyzer) (df : DataFrame) :
  track_data self = Some df -> rows df <> [] ->
  let steps := step_distances (coords_of df) in
  let cum := cumsum (zero :: steps) in
  option_map cumulative_distance (track_data (fst (calculate_metrics self)))
    = Some (Some cum) /\
  Forall (fun d => leb zero d = true) steps /\
  (forall i, S i < length cum ->
     leb (nth i cum zero) (nth (S i) cum zero) = true) /\
  last cum zero = total_distance (fst (calculate_metrics self)).
Proof.
  intros Hdf Hrows steps cum.
  destruct (calculate_metrics_distances self Hdf Hrows) as [F T].
  rewrite F, T. repeat split.
  - apply step_distances_nonneg.
  - intros i Hi. apply cumsum_nondecreasing.
    + apply step_distances_nonneg.
    + unfold cum in Hi. rewrite cumsum_length in Hi. simpl in Hi. lia.
  - apply (cumsum_from_last steps zero).
Qed.

(** When the call returns, the gain it stored is not negative. *)
Lemma stored_gain_nonneg (self : GPXAnalyzer) (df : DataFrame) :
  track_data self = Some df -> rows df <> [] ->
  snd (calculate_metrics self) = None ->
  exists g, elevation_gain (fst (calculate_metrics self)) = Some g /\
            leb zero g = true.
Proof.
  intros Hdf Hrows Hret.
  pose proof (calculate_metrics_gain self Hdf Hrows) as G.
  destruct (series_diff (elevations df)) as [e|d].
  - destruct G as [G _]. congruence.
  - destruct G as [_ G]. eexists. split; [exact G|].
    apply (py_max_nonneg leb_total).
Qed.

End MonotonicityFacts.

(** ** Scenarios of the specification *)

(** Elevations 100, 150, 120: extrema 150 and 100, gain 50. *)
Example hill_metrics :
  let r := calculate_metrics (analyzer_on track_file hill) in
  snd r = None /\
  max_elevation (fst r) = Some (Some 150%Z) /\
  min_elevation (fst r) = Some (Some 100%Z) /\
  elevation_gain (fst r) = Some 50%Z.
Proof. repeat split; reflexivity. Qed.

(** The middle point without elevation: both steps next to it add nothing
    to the gain, and the extrema are those of the two other points. *)
Example gap_metrics :
  let r := calculate_metrics (analyzer_on track_file gap) in
  snd r = None /\
  max_elevation (fst r) = Some (Some 120%Z) /\
  min_elevation (fst r) = Some (Some 100%Z) /\
  elevation_gain (fst r) = Some 0%Z.
Proof. repeat split; reflexivity. Qed.

(** A complete run. *)
Example hill_run :
  process (world_of hill) track_file =
  ([Print (@TotalDistanceLine ZPlatform 20%Z);
    Print (@MaxElevationLine ZPlatform (Some 150%Z));
    Print (@MinElevationLine ZPlatform (Some 100%Z));
    Print (@ElevationGainLine ZPlatform 50%Z);
    @SaveMap ZPlatform map_file [(0, 0); (0, 10); (0, 20)]%Z;
    Print (MapSaved map_file);
    OpenBrowser map_file;
    @ShowChart ZPlatform [0; 10; 20]%Z [Some 100; Some 150; Some 120]%Z],
   0%Z).
Proof. reflexivity. Qed.

(** ** Tracks without any elevation

    A file whose points carry no elevation at all gives an object column of
    [None]s, and [diff()] on two or more of them raises [TypeError]: the
    call ends in the exception and no gain is stored. *)

(** C4: on a track of two points without elevation both extrema are NaN,
    as they should be, yet [calculate_metrics] raises [TypeError] on its
    last line. *)
Theorem no_elevation_track_crashes :
  max_elevation (fst (calculate_metrics (analyzer_on track_file bare_pair)))
    = Some None /\
  min_elevation (fst (calculate_metrics (analyzer_on track_file bare_pair)))
    = Some None /\
  snd (calculate_metrics (analyzer_on track_file bare_pair)) = Some TypeError.
Proof. repeat split; reflexivity. Qed.

(** C1: on a track of three points without elevation every pair misses an
    elevation, so the gain of the specification is [0]; the call raises
    instead and stores no gain. *)
Theorem no_elevation_track_has_no_gain :
  @elevation_gain_spec ZPlatform (map (@elevation ZPlatform) bare_triple)
    = 0%Z /\
  elevation_gain (fst (calculate_metrics (analyzer_on track_file bare_triple)))
    = None /\
  snd (calculate_metrics (analyzer_on track_file bare_triple))
    = Some TypeError.
Proof. repeat split; reflexivity. Qed.

(** C6: on a walk of four points without elevation the distances are
    stored, non-negative and non-decreasing, with the total as last
    cumulative distance, but no elevation gain exists to be non-negative:
    the call has raised. *)
Theorem no_elevation_track_gain_unset :
  let r := calculate_metrics (analyzer_on track_file bare_walk) in
  option_map distance (track_data (fst r)) = Some (Some [0; 3; 4; 3]%Z) /\
  option_map cumulative_distance (track_data (fst r))
    = Some (Some [0; 3; 7; 10]%Z) /\
  total_distance (fst r) = 10%Z /\
  elevation_gain (fst r) = None /\
  snd r = Some TypeError.
Proof. repeat split; reflexivity. Qed.

(** ** Sequencing *)

Section PipelineFacts.
Context {P : Platform}.

Lemma bind_return {A B} (out : list event) (a : A) (k : A -> run B) :
  bind (out, inr a) k = (out ++ fst (k a), snd (k a)).
Proof. unfold bind. now destruct (k a). Qed.

End PipelineFacts.

(** * Further properties of the analyzer *)

(** ** The integers satisfy the laws *)

Lemma Z_leb_total (a b : Z) : Z.leb a b = true \/ Z.leb b a = true.
Proof. rewrite !Z.leb_le. lia. Qed.

Lemma Z_leb_trans (a b c : Z) :
  Z.leb a b = true -> Z.leb b c = true -> Z.leb a c = true.
Proof. rewrite !Z.leb_le. lia. Qed.

Lemma Z_leb_antisym (a b : Z) :
  Z.leb a b = true -> Z.leb b a = true -> a = b.
Proof. rewrite !Z.leb_le. lia. Qed.

Lemma Z_add_zero_r (a : Z) : (a + 0)%Z = a.
Proof. lia. Qed.

Lemma Z_add_nonneg (a b : Z) :
  Z.leb 0 a = true -> Z.leb 0 b = true -> Z.leb 0 (a + b) = true.
Proof. rewrite !Z.leb_le. lia. Qed.

Lemma Z_add_mono (a d : Z) : Z.leb 0 d = true -> Z.leb a (a + d) = true.
Proof. rewrite !Z.leb_le. lia. Qed.

Lemma taxicab_nonneg (p q : Z * Z) : Z.leb 0 (taxicab p q) = true.
Proof. unfold taxicab. rewrite Z.leb_le. lia. Qed.

(** ** Loading and extracting *)

Section LoaderFacts.
Context {P : Platform}.

(** X1: [load_gpx_file] lets no exception escape.  It returns, without a word,
    exactly when the file parses and holds a track, and then it has set
    [gpx] and nothing else; in every other case it prints one diagnostic
    and leaves through [exit(1)]. *)
Theorem load_gpx_file_outcomes (w : World) (self : GPXAnalyzer) :
  match load_gpx_file w self with
  | (out, inr self') =>
      out = [] /\
      exists g, read w (file_path self) = Parsed g /\ g <> [] /\
                self' = set_gpx self g
  | (out, inl (SystemExit code)) =>
      code = 1%Z /\
      (exists l, out = [Print l] /\ is_diagnostic (Print l) = true) /\
      (forall g, read w (file_path self) = Parsed g -> g = [])
  | (_, inl (Raised _)) => False
  end.
Proof.
  unfold load_gpx_file.
  destruct (read w (file_path self)) as [| |g] eqn:R; cbn.
  - repeat split; [eexists; split; reflexivity|discriminate].
  - repeat split; [eexists; split; reflexivity|discriminate].
  - destruct g as [|tr g']; cbn.
    + repeat split; [eexists; split; reflexivity|].
      intros g Hg. now injection Hg as <-.
    + split; [reflexivity|]. exists (tr :: g').
      repeat split. discriminate.
Qed.

Lemma length_concat_segments (track : list (list TrackPoint)) :
  length (List.concat track) = list_sum (map (@length TrackPoint) track).
Proof.
  induction track as [|seg track IH]; [reflexivity|].
  change (List.concat (seg :: track)) with (seg ++ List.concat track).
  rewrite length_app, IH. reflexivity.
Qed.

Lemma length_flatten (g : GPX) :
  length (List.concat (List.concat g)) = point_count g.
Proof.
  unfold point_count.
  induction g as [|track g IH]; [reflexivity|].
  change (List.concat (track :: g)) with (track ++ List.concat g).
  rewrite concat_app, length_app, IH, length_concat_segments. reflexivity.
Qed.

Lemma In_flatten (g : GPX) (p : TrackPoint) :
  In p (List.concat (List.concat g)) <->
  exists track seg, In track g /\ In seg track /\ In p seg.
Proof.
  rewrite in_concat. split.
  - intros (seg & Hseg & Hp). apply in_concat in Hseg.
    destruct Hseg as (track & Htrack & Hseg). eauto.
  - intros (track & seg & Htrack & Hseg & Hp).
    exists seg. split; [|assumption]. apply in_concat. eauto.
Qed.


(** X2: [extract_track_data] shows nothing; it raises [ValueError] exactly when
    the file holds no point, and otherwise stores a fresh frame with one row
    per point of the file: every point of every segment of every track, in
    file order, and without the columns of the metrics. *)
Theorem extract_track_data_points (self : GPXAnalyzer) (g : GPX) :
  gpx self = Some g ->
  (point_count g = 0 ->
   extract_track_data self = ([], inl (Raised (ValueError NoPoints)))) /\
  (0 < point_count g ->
   exists df,
     extract_track_data self = ([], inr (set_track_data self df)) /\
     rows df = List.concat (List.concat g) /\
     length (rows df) = point_count g /\
     (forall p, In p (rows df) <->
                exists track seg, In track g /\ In seg track /\ In p seg) /\
     distance df = None /\ cumulative_distance df = None).
Proof.
  intros Hg. unfold extract_track_data. rewrite Hg.
  pose proof (length_flatten g) as L.
  destruct (List.concat (List.concat g)) as [|p t] eqn:E.
  - split; [reflexivity|]. cbn in L. lia.
  - split; [cbn in L; lia|]. intros _.
    exists {| rows := p :: t; distance := None; cumulative_distance := None |}.
    cbn [rows distance cumulative_distance].
    repeat split; try reflexivity; try assumption;
      rewrite <- E; apply In_flatten.
Qed.

End LoaderFacts.

Lemma extract_track_data_points_witness :
  exists df,
    extract_track_data (set_gpx (init track_file) [[hill]; [gap]])
      = ([], inr (set_track_data (set_gpx (init track_file) [[hill]; [gap]]) df)) /\
    rows df = hill ++ gap.
Proof.
  destruct (proj2 (@extract_track_data_points ZPlatform
                     (set_gpx (init track_file) [[hill]; [gap]])
                     [[hill]; [gap]] eq_refl)
              ltac:(vm_compute; lia))
    as (df & H1 & H2 & _).
  exists df. split; [exact H1|exact H2].
Defined.

(** ** When [calculate_metrics] raises *)

Section RaiseFacts.
Context {P : Platform}.

Lemma elevations_all_missing (df : DataFrame) :
  (forall o, In o (elevations df) -> o = None) <->
  (forall p, In p (rows df) -> elevation p = None).
Proof.
  unfold elevations. split.
  - intros H p Hp. apply H. now apply in_map.
  - intros H o Ho. apply in_map_iff in Ho.
    destruct Ho as (p & <- & Hp). now apply H.
Qed.

Lemma series_diff_only_TypeError (col : list (option num)) (e : exception) :
  series_diff col = inl e -> e = TypeError.
Proof.
  unfold series_diff. destruct col as [|first rest]; [discriminate|].
  destruct (infer_dtype (first :: rest)), rest; congruence.
Qed.

(** Both extrema are elevations of points of the track, as soon as one
    point has an elevation. *)
Theorem stored_extrema_attained
    (self : GPXAnalyzer) (df : DataFrame) (p : TrackPoint) (e : num) :
  track_data self = Some df -> In p (rows df) -> elevation p = Some e ->
  exists plo phi lo hi,
    In plo (rows df) /\ elevation plo = Some lo /\
    In phi (rows df) /\ elevation phi = Some hi /\
    min_elevation (fst (calculate_metrics self)) = Some (Some lo) /\
    max_elevation (fst (calculate_metrics self)) = Some (Some hi).
Proof.
  intros Hdf Hp He.
  assert (Hrows : rows df <> [])
    by (destruct (rows df); [destruct Hp|discriminate]).
  destruct (calculate_metrics_extrema self Hdf Hrows) as [Hmax Hmin].
  assert (Hin : In e (dropna (elevations df))).
  { apply dropna_In. unfold elevations. rewrite <- He. now apply in_map. }
  unfold series_max in Hmax. unfold series_min in Hmin.
  destruct (dropna (elevations df)) as [|x t] eqn:E; [destruct Hin|].
  assert (Hlo : In (Some (fold_left minn t x)) (elevations df)).
  { apply dropna_In. rewrite E. apply fold_minn_In. }
  assert (Hhi : In (Some (fold_left maxn t x)) (elevations df)).
  { apply dropna_In. rewrite E. apply fold_maxn_In. }
  unfold elevations in Hlo, Hhi.
  apply in_map_iff in Hlo. destruct Hlo as (plo & Elo & Ilo).
  apply in_map_iff in Hhi. destruct Hhi as (phi & Ehi & Ihi).
  exists plo, phi, (fold_left minn t x), (fold_left maxn t x). auto 10.
Qed.

End RaiseFacts.

(** ** Growing a track *)

Section GrowthFacts.
Context {P : Platform}.

Lemma coords_of_map (df : DataFrame) : coords_of df = map coord (rows df).
Proof.
  unfold coords_of. induction (rows df) as [|p t IH]; [reflexivity|].
  cbn [map combine]. now rewrite IH.
Qed.

Lemma step_distances_snoc (c : list (num * num)) (q d : num * num) :
  c <> [] ->
  step_distances (c ++ [q]) = step_distances c ++ [geodesic (last c d) q].
Proof.
  induction c as [|p t IH]; [congruence|]. intros _.
  destruct t as [|p' t']; [reflexivity|].
  change (step_distances ((p :: p' :: t') ++ [q]))
    with (geodesic p p' :: step_distances ((p' :: t') ++ [q])).
  rewrite IH by discriminate. reflexivity.
Qed.

Lemma cumsum_from_snoc (l : list num) (x : num) :
  forall acc,
    cumsum_from acc (l ++ [x]) =
    cumsum_from acc l ++ [add (fold_left add l acc) x].
Proof.
  induction l as [|y t IH]; intros acc; [reflexivity|].
  cbn [app cumsum_from fold_left]. now rewrite IH.
Qed.

Lemma last_map_coord (l : list TrackPoint) (p : TrackPoint) :
  last (map coord l) (coord p) = coord (last l p).
Proof.
  induction l as [|x t IH]; [reflexivity|].
  destruct t as [|y t']; [reflexivity|]. exact IH.
Qed.

Hypothesis leb_total : forall a b, leb a b = true \/ leb b a = true.
Hypothesis leb_antisym :
  forall a b, leb a b = true -> leb b a = true -> a = b.
Hypothesis add_nonneg :
  forall a b, leb zero a = true -> leb zero b = true ->
              leb zero (add a b) = true.

Lemma clip_lower0_nonneg (l : list num) :
  Forall (fun x => leb zero x = true) (clip_lower0 l).
Proof.
  unfold clip_lower0. apply Forall_forall. intros y Hy.
  apply in_map_iff in Hy. destruct Hy as (x & <- & _).
  unfold clip0. destruct (leb zero x) eqn:E;
    [assumption|apply (leb_refl leb_total)].
Qed.

(** X11: the outer [max(0, ...)] of the gain never changes anything: the sum of
    the clipped differences is not negative to begin with. *)
Theorem outer_max_is_redundant
    (self : GPXAnalyzer) (df : DataFrame) (d : list (option num)) :
  track_data self = Some df -> rows df <> [] ->
  series_diff (elevations df) = inr d ->
  elevation_gain (fst (calculate_metrics self)) =
    Some (series_sum (clip_lower0 (fillna0 d))).
Proof.
  intros Hdf Hrows Hd.
  pose proof (calculate_metrics_gain self Hdf Hrows) as G.
  rewrite Hd in G. destruct G as [_ G]. rewrite G. f_equal.
  apply (py_max_id leb_total leb_antisym).
  unfold series_sum. apply (fold_add_nonneg add_nonneg).
  - apply clip_lower0_nonneg.
  - apply (leb_refl leb_total).
Qed.

End GrowthFacts.

Lemma outer_max_is_redundant_witness :
  elevation_gain (fst (calculate_metrics (analyzer_on track_file hill)))
    = Some 50%Z.
Proof.
  exact (@outer_max_is_redundant ZPlatform
           Z_leb_total Z_leb_antisym Z_add_nonneg
           (analyzer_on track_file hill) (frame_of hill)
           [None; Some 50%Z; Some (-30)%Z]
           eq_refl ltac:(discriminate) eq_refl).
Defined.

(** ** Runs, from the path to the exit status *)

Section RunFacts.
Context {P : Platform}.

Lemma process_not_a_file (w : World) (path : string) :
  isfile w path = false -> process w path = ([Print NotAFile], 1%Z).
Proof. intros H. unfold process, main. now rewrite H. Qed.

Lemma process_no_points (w : World) (path : string) (g : GPX) :
  isfile w path = true -> read w path = Parsed g -> g <> [] ->
  List.concat (List.concat g) = [] ->
  process w path = ([Traceback (ValueError NoPoints)], 1%Z).
Proof.
  intros Hfile Hread Hg Hpts.
  unfold process, main, run_analysis, load_gpx_file.
  rewrite Hfile. cbn [init file_path]. rewrite Hread.
  destruct g as [|track g']; [congruence|].
  unfold ret. rewrite bind_return.
  unfold extract_track_data. cbn [set_gpx gpx]. rewrite Hpts.
  reflexivity.
Qed.

(** A run that got its points ends where [calculate_metrics] ends. *)
Lemma process_of_points
    (w : World) (path : string) (g : GPX) (p : TrackPoint)
    (t : list TrackPoint) :
  isfile w path = true -> read w path = Parsed g -> g <> [] ->
  List.concat (List.concat g) = p :: t ->
  process w path =
  match series_diff (map elevation (p :: t)) with
  | inl e => ([Traceback e], 1%Z)
  | inr d =>
      (report (frame_of (p :: t))
         (py_max zero (series_sum (clip_lower0 (fillna0 d)))), 0%Z)
  end.
Proof.
  intros Hfile Hread Hg Hpts.
  unfold process, main, run_analysis, load_gpx_file.
  rewrite Hfile. cbn [init file_path]. rewrite Hread.
  destruct g as [|track g']; [congruence|].
  unfold ret. rewrite bind_return.
  unfold extract_track_data. cbn [set_gpx gpx]. rewrite Hpts.
  unfold ret. rewrite bind_return.
  unfold calculate_metrics_run.
  match goal with
  | |- context [calculate_metrics ?s] =>
      rewrite (@calculate_metrics_unfold P s (frame_of (p :: t)) eq_refl
                 ltac:(discriminate))
  end.
  change (elevations (frame_of (p :: t))) with (map elevation (p :: t)).
  destruct (series_diff (map elevation (p :: t))) as [e|d]; reflexivity.
Qed.

(** X13: track and segment boundaries play no part: two files with the same
    points in the same order give the same run, whatever the grouping into
    tracks and segments. *)
Theorem segment_boundaries_ignored
    (w1 w2 : World) (path : string) (g1 g2 : GPX) :
  isfile w1 path = isfile w2 path ->
  read w1 path = Parsed g1 -> read w2 path = Parsed g2 ->
  g1 <> [] -> g2 <> [] ->
  List.concat (List.concat g1) = List.concat (List.concat g2) ->
  process w1 path = process w2 path.
Proof.
  intros Hfile R1 R2 G1 G2 Hpts.
  destruct (isfile w2 path) eqn:F2.
  - destruct (List.concat (List.concat g2)) as [|p t] eqn:E.
    + rewrite (process_no_points w1 path Hfile R1 G1 Hpts).
      now rewrite (process_no_points w2 path F2 R2 G2 E).
    + rewrite (process_of_points w1 path Hfile R1 G1 Hpts).
      now rewrite (process_of_points w2 path F2 R2 G2 E).
  - now rewrite !process_not_a_file.
Qed.

(** ** The presenters on their own *)

(** X17: [visualize_track_on_map] needs the points and nothing else: on any
    track with a point it saves the map of all points, says so, and opens
    the browser, in this order, before and after [calculate_metrics]
    alike. *)
Theorem visualize_needs_only_points (self : GPXAnalyzer) (df : DataFrame) :
  track_data self = Some df -> rows df <> [] ->
  visualize_track_on_map self =
    ([SaveMap map_file (map coord (rows df)); Print (MapSaved map_file);
      OpenBrowser map_file], inr tt) /\
  visualize_track_on_map (fst (calculate_metrics self)) =
    visualize_track_on_map self.
Proof.
  intros Hdf Hrows.
  assert (V : forall s d, track_data s = Some d -> rows d = rows df ->
              visualize_track_on_map s =
              ([SaveMap map_file (map coord (rows df)); Print (MapSaved map_file);
                OpenBrowser map_file], inr tt)).
  { intros s d Hs Hd. unfold visualize_track_on_map. rewrite Hs.
    rewrite coords_of_map, Hd.
    destruct (rows df); [congruence|reflexivity]. }
  split; [now apply (V self df)|].
  rewrite (V self df Hdf eq_refl).
  destruct (calculate_metrics_distances self Hdf Hrows) as [F _].
  now apply (V _ _ F).
Qed.

End RunFacts.

Lemma segment_boundaries_ignored_witness :
  process hill_in_two_segments track_file =
  process hill_in_two_tracks track_file.
Proof.
  apply (@segment_boundaries_ignored ZPlatform
           hill_in_two_segments hill_in_two_tracks track_file
           [[climb; [zpoint 0 20 (Some 120%Z)]]]
           [[climb]; [[zpoint 0 20 (Some 120%Z)]]]
           eq_refl eq_refl eq_refl);
    [discriminate|discriminate|reflexivity].
Defined.

Lemma visualize_needs_only_points_witness :
  visualize_track_on_map (analyzer_on track_file bare_pair) =
    ([@SaveMap ZPlatform map_file [(0, 0); (0, 10)]%Z;
      Print (MapSaved map_file); OpenBrowser map_file], inr tt) /\
  visualize_track_on_map
    (fst (calculate_metrics (analyzer_on track_file bare_pair))) =
  visualize_track_on_map (analyzer_on track_file bare_pair).
Proof.
  exact (@visualize_needs_only_points ZPlatform
           (analyzer_on track_file bare_pair) (frame_of bare_pair)
           eq_refl ltac:(discriminate)).
Defined.


(** * The analyzer in its environment *)

(** ** Line 57 with geopy *)

Section GeopyFacts.
Context {P : Platform} {G : Geopy}.

Lemma step_distances_geopy_accepted (coords : list (num * num)) :
  forallb accepts coords = true ->
  step_distances_geopy coords = inr (step_distances coords).
Proof.
  induction coords as [|p t IH]; [reflexivity|].
  destruct t as [|q t']; [reflexivity|]. intros H.
  change (forallb accepts (p :: q :: t'))
    with (accepts p && forallb accepts (q :: t')) in H.
  apply andb_prop in H. destruct H as [Hp Hq].
  specialize (IH Hq).
  change (step_distances_geopy (p :: q :: t'))
    with (if accepts p && accepts q then
            match step_distances_geopy (q :: t') with
            | inl e => inl e
            | inr ds => inr (geodesic p q :: ds)
            end
          else inl (ValueError BadCoordinate)).
  rewrite IH, Hp.
  cbn [forallb] in Hq. apply andb_prop in Hq. destruct Hq as [Hq _].
  rewrite Hq. reflexivity.
Qed.

Lemma step_distances_geopy_rejected (coords : list (num * num)) :
  2 <= length coords -> forallb accepts coords = false ->
  step_distances_geopy coords = inl (ValueError BadCoordinate).
Proof.
  induction coords as [|p t IH]; [cbn; lia|].
  destruct t as [|q t']; [cbn; lia|]. intros _ H.
  change (step_distances_geopy (p :: q :: t'))
    with (if accepts p && accepts q then
            match step_distances_geopy (q :: t') with
            | inl e => inl e
            | inr ds => inr (geodesic p q :: ds)
            end
          else inl (ValueError BadCoordinate)).
  destruct (accepts p) eqn:Hp; [|reflexivity].
  destruct (accepts q) eqn:Hq; [|reflexivity].
  cbn [andb].
  change (forallb accepts (p :: q :: t'))
    with (accepts p && forallb accepts (q :: t')) in H.
  rewrite Hp in H. cbn [andb] in H.
  destruct t' as [|r t''].
  - cbn in H. rewrite Hq in H. discriminate.
  - rewrite IH; [reflexivity|cbn; lia|exact H].
Qed.

Lemma calculate_metrics_geopy_accepted (self : GPXAnalyzer) (df : DataFrame) :
  track_data self = Some df -> accepted df = true ->
  calculate_metrics_geopy self = calculate_metrics self.
Proof.
  intros Hdf Hok. unfold calculate_metrics_geopy. rewrite Hdf.
  rewrite (step_distances_geopy_accepted _ Hok).
  destruct (rows df) eqn:E; [|reflexivity].
  unfold calculate_metrics. now rewrite Hdf, E.
Qed.

Lemma calculate_metrics_geopy_single
    (self : GPXAnalyzer) (df : DataFrame) (p : TrackPoint) :
  track_data self = Some df -> rows df = [p] ->
  calculate_metrics_geopy self = calculate_metrics self.
Proof.
  intros Hdf Hrows. unfold calculate_metrics_geopy, coords_of.
  rewrite Hdf, Hrows. reflexivity.
Qed.

Lemma calculate_metrics_geopy_rejected (self : GPXAnalyzer) (df : DataFrame) :
  track_data self = Some df -> 2 <= length (rows df) ->
  accepted df = false ->
  calculate_metrics_geopy self = (self, Some (ValueError BadCoordinate)).
Proof.
  intros Hdf Hlen Hbad. unfold calculate_metrics_geopy. rewrite Hdf.
  rewrite (step_distances_geopy_rejected (coords_of df));
    [|now rewrite coords_of_length|exact Hbad].
  destruct (rows df); [cbn in Hlen; lia|reflexivity].
Qed.

End GeopyFacts.

(** ** [calculate_metrics] on the points of a file *)

Section CheckedMetricsFacts.
Context {P : Platform} {G : Geopy}.

(** X3: how [calculate_metrics] ends on a track with a point.  With two or
    more points of which one is not accepted by geopy, line 57 raises
    [ValueError] and nothing is stored.  With two or more accepted points
    of which none has an [<ele>], line 67 raises [TypeError]: distances and
    extrema are stored, [elevation_gain] is untouched.  With accepted
    points of which one has an elevation, and with a single point, the
    method returns. *)
Theorem calculate_metrics_geopy_outcomes
    (self : GPXAnalyzer) (df : DataFrame) :
  track_data self = Some df -> rows df <> [] ->
  (2 <= length (rows df) -> accepted df = false ->
   calculate_metrics_geopy self = (self, Some (ValueError BadCoordinate))) /\
  (2 <= length (rows df) -> accepted df = true ->
   (forall p, In p (rows df) -> elevation p = None) ->
   calculate_metrics_geopy self =
     (stored self df (elevation_gain self), Some TypeError)) /\
  (accepted df = true ->
   forall p e, In p (rows df) -> elevation p = Some e ->
   snd (calculate_metrics_geopy self) = None) /\
  (length (rows df) = 1 -> snd (calculate_metrics_geopy self) = None).
Proof.
  intros Hdf Hrows. split; [|split; [|split]].
  - intros Hlen Hbad. now apply calculate_metrics_geopy_rejected with df.
  - intros Hlen Hok Hall.
    rewrite (calculate_metrics_geopy_accepted self Hdf Hok).
    rewrite (calculate_metrics_unfold self Hdf Hrows).
    destruct (proj2 (series_diff_raises (elevations df))) as [e He].
    { split; [now apply elevations_all_missing|].
      unfold elevations. now rewrite length_map. }
    rewrite He. now rewrite (series_diff_only_TypeError _ He).
  - intros Hok p e Hp He.
    rewrite (calculate_metrics_geopy_accepted self Hdf Hok).
    assert (Hin : In (Some e) (elevations df)).
    { unfold elevations. rewrite <- He. now apply in_map. }
    destruct (series_diff_present _ _ Hin) as [d Hd].
    pose proof (calculate_metrics_gain self Hdf Hrows) as Hg.
    rewrite Hd in Hg. exact (proj1 Hg).
  - intros Hlen.
    pose proof (calculate_metrics_gain self Hdf Hrows) as Hg.
    destruct (rows df) as [|p [|q t]] eqn:E; try discriminate.
    rewrite (calculate_metrics_geopy_single self Hdf E).
    unfold elevations, series_diff in Hg. rewrite E in Hg. cbn [map] in Hg.
    destruct (infer_dtype [elevation p]); exact (proj1 Hg).
Qed.

(** X6: both extrema are elevations of points of the track, as soon as one
    point has an elevation and geopy accepts the points. *)
Theorem extrema_are_elevations_of_points
    (self : GPXAnalyzer) (df : DataFrame) (p : TrackPoint) (e : num) :
  track_data self = Some df -> accepted df = true ->
  In p (rows df) -> elevation p = Some e ->
  exists plo phi lo hi,
    In plo (rows df) /\ elevation plo = Some lo /\
    In phi (rows df) /\ elevation phi = Some hi /\
    min_elevation (fst (calculate_metrics_geopy self)) = Some (Some lo) /\
    max_elevation (fst (calculate_metrics_geopy self)) = Some (Some hi).
Proof.
  intros Hdf Hok Hp He.
  rewrite (calculate_metrics_geopy_accepted self Hdf Hok).
  exact (stored_extrema_attained self p Hdf Hp He).
Qed.

(** X9: one more point at the end of a track leaves the columns computed so
    far as they were: [distance] gets one more entry, the step from the
    former last point, and [cumulative_distance] gets the former last entry
    plus that step. *)
Theorem appending_point_extends_columns
    (a b : GPXAnalyzer) (dfa dfb : DataFrame) (p : TrackPoint) :
  track_data a = Some dfa -> track_data b = Some dfb ->
  rows dfa <> [] -> rows dfb = rows dfa ++ [p] ->
  accepted dfb = true ->
  let step := geodesic (coord (last (rows dfa) p)) (coord p) in
  exists dist cum,
    option_map distance (track_data (fst (calculate_metrics_geopy a)))
      = Some (Some dist) /\
    option_map cumulative_distance
      (track_data (fst (calculate_metrics_geopy a))) = Some (Some cum) /\
    option_map distance (track_data (fst (calculate_metrics_geopy b)))
      = Some (Some (dist ++ [step])) /\
    option_map cumulative_distance
      (track_data (fst (calculate_metrics_geopy b)))
      = Some (Some (cum ++ [add (last cum zero) step])).
Proof.
  intros Ha Hb Hrows Happ Hokb step.
  assert (Hoka : accepted dfa = true).
  { unfold accepted in *. rewrite !coords_of_map in *.
    rewrite Happ, map_app, forallb_app in Hokb.
    now apply andb_prop in Hokb. }
  rewrite (calculate_metrics_geopy_accepted a Ha Hoka).
  rewrite (calculate_metrics_geopy_accepted b Hb Hokb).
  assert (Hrows' : rows dfb <> []).
  { rewrite Happ. destruct (rows dfa); discriminate. }
  destruct (calculate_metrics_distances a Ha Hrows) as [Fa _].
  destruct (calculate_metrics_distances b Hb Hrows') as [Fb _].
  assert (Hsteps : step_distances (coords_of dfb) =
                   step_distances (coords_of dfa) ++ [step]).
  { rewrite !coords_of_map, Happ, map_app. cbn [map].
    rewrite (step_distances_snoc (coord p) (coord p)).
    - now rewrite last_map_coord.
    - destruct (rows dfa); [congruence|discriminate]. }
  rewrite Fa, Fb. unfold with_distances.
  cbn [option_map distance cumulative_distance]. rewrite Hsteps.
  exists (zero :: step_distances (coords_of dfa)),
         (cumsum (zero :: step_distances (coords_of dfa))).
  repeat split.
  cbn [cumsum app]. rewrite cumsum_from_snoc, cumsum_from_last.
  reflexivity.
Qed.

Hypothesis leb_total : forall a b, leb a b = true \/ leb b a = true.
Hypothesis leb_trans :
  forall a b c, leb a b = true -> leb b c = true -> leb a c = true.
Hypothesis leb_antisym :
  forall a b, leb a b = true -> leb b a = true -> a = b.
Hypothesis add_nonneg :
  forall a b, leb zero a = true -> leb zero b = true ->
              leb zero (add a b) = true.
Hypothesis add_mono :
  forall a d, leb zero d = true -> leb a (add a d) = true.
Hypothesis geodesic_nonneg : forall p q, leb zero (geodesic p q) = true.

(** X5: on points that geopy accepts, the stored minimum and maximum bound
    the elevation of every point that has one. *)
Theorem extrema_bound_every_elevation
    (self : GPXAnalyzer) (df : DataFrame) (p : TrackPoint) (e : num) :
  track_data self = Some df -> accepted df = true ->
  In p (rows df) -> elevation p = Some e ->
  exists lo hi,
    min_elevation (fst (calculate_metrics_geopy self)) = Some (Some lo) /\
    max_elevation (fst (calculate_metrics_geopy self)) = Some (Some hi) /\
    leb lo e = true /\ leb e hi = true.
Proof.
  intros Hdf Hok Hp He.
  rewrite (calculate_metrics_geopy_accepted self Hdf Hok).
  assert (Hrows : rows df <> [])
    by (destruct (rows df); [destruct Hp|discriminate]).
  exact (stored_extrema_bounds leb_total leb_trans self Hdf Hrows p Hp He).
Qed.

(** X7: on points that geopy accepts, no step distance is negative, and
    the cumulative distances start at [0] and never decrease. *)
Theorem cumulative_distance_never_decreases
    (self : GPXAnalyzer) (df : DataFrame) :
  track_data self = Some df -> rows df <> [] -> accepted df = true ->
  exists steps cum,
    option_map distance (track_data (fst (calculate_metrics_geopy self)))
      = Some (Some (zero :: steps)) /\
    option_map cumulative_distance
      (track_data (fst (calculate_metrics_geopy self))) = Some (Some cum) /\
    Forall (fun s => leb zero s = true) steps /\
    nth_error cum 0 = Some zero /\
    forall i, S i < length cum ->
      leb (nth i cum zero) (nth (S i) cum zero) = true.
Proof.
  intros Hdf Hrows Hok.
  rewrite (calculate_metrics_geopy_accepted self Hdf Hok).
  destruct (calculate_metrics_distances self Hdf Hrows) as [F _].
  rewrite F. unfold with_distances.
  cbn [option_map distance cumulative_distance].
  do 2 eexists. split; [reflexivity|]. split; [reflexivity|].
  split; [apply (step_distances_nonneg geodesic_nonneg)|].
  split; [reflexivity|].
  intros i Hi. apply (cumsum_nondecreasing add_mono).
  - apply (step_distances_nonneg geodesic_nonneg).
  - rewrite cumsum_length in Hi. cbn [length] in Hi. lia.
Qed.

Lemma row_gains_from_diff (col : list (option num)) :
  forall prev,
    clip_lower0 (fillna0 (diff_from prev col)) = row_gains_from prev col.
Proof.
  induction col as [|cur t IH]; intros prev; [reflexivity|].
  cbn [diff_from row_gains_from].
  change (clip_lower0 (fillna0 (delta prev cur :: diff_from cur t)))
    with (clip0 (match delta prev cur with Some x => x | None => zero end)
          :: clip_lower0 (fillna0 (diff_from cur t))).
  rewrite IH. f_equal.
  destruct prev as [a|], cur as [b|]; cbn [delta];
    try (unfold clip0; now rewrite (leb_refl leb_total)).
  apply (clip0_py_max leb_total leb_antisym).
Qed.

(** X4: what line 67 adds up.  On accepted points of which one has an
    elevation the method returns, the column that is summed holds [0] in the
    first row and in every row next to a gap, and [max(0, delta)] in a row
    that has an elevation as has the row before it, and [elevation_gain] is
    the sum of that column: a gap adds nothing, and no elevation is
    carried over it. *)
Theorem gain_adds_row_gains
    (self : GPXAnalyzer) (df : DataFrame) (p : TrackPoint) (e : num) :
  track_data self = Some df -> accepted df = true ->
  In p (rows df) -> elevation p = Some e ->
  snd (calculate_metrics_geopy self) = None /\
  exists d,
    series_diff (elevations df) = inr d /\
    clip_lower0 (fillna0 d) = row_gains (elevations df) /\
    elevation_gain (fst (calculate_metrics_geopy self)) =
      Some (series_sum (row_gains (elevations df))).
Proof.
  intros Hdf Hok Hp He.
  rewrite (calculate_metrics_geopy_accepted self Hdf Hok).
  assert (Hrows : rows df <> [])
    by (destruct (rows df); [destruct Hp|discriminate]).
  assert (Hin : In (Some e) (elevations df)).
  { unfold elevations. rewrite <- He. now apply in_map. }
  destruct (series_diff_present _ _ Hin) as [d Hd].
  pose proof (calculate_metrics_gain self Hdf Hrows) as Hg.
  rewrite Hd in Hg. destruct Hg as [Hret Hgain].
  split; [exact Hret|]. exists d. split; [exact Hd|].
  assert (Hcol : clip_lower0 (fillna0 d) = row_gains (elevations df)).
  { unfold series_diff in Hd.
    destruct (elevations df) as [|first rest]; [destruct Hin|].
    assert (Hd' : d = None :: diff_from first rest).
    { destruct (infer_dtype (first :: rest)), rest; congruence. }
    subst d. cbn [row_gains].
    change (clip_lower0 (fillna0 (None :: diff_from first rest)))
      with (clip0 zero :: clip_lower0 (fillna0 (diff_from first rest))).
    rewrite row_gains_from_diff. f_equal.
    unfold clip0. now rewrite (leb_refl leb_total). }
  split; [exact Hcol|].
  rewrite Hgain, <- Hcol. f_equal.
  apply (py_max_id leb_total leb_antisym).
  unfold series_sum. apply (fold_add_nonneg add_nonneg).
  - apply (clip_lower0_nonneg leb_total).
  - apply (leb_refl leb_total).
Qed.

End CheckedMetricsFacts.

(** ** Runs in their environment *)

Section EnvironmentRunFacts.
Context {P : Platform} {G : Geopy}.

Lemma process_on_not_a_file (d : Desktop) (w : World) (path : string) :
  isfile w path = false -> process_on d w path = ([Print NotAFile], 1%Z).
Proof. intros H. unfold process_on, main_on. now rewrite H. Qed.

Lemma process_on_unreadable (d : Desktop) (w : World) (path : string) :
  isfile w path = true ->
  (read w path = Missing ->
   process_on d w path = ([Print (FileMissing path)], 1%Z)) /\
  (read w path = Broken ->
   process_on d w path = ([Print (LoadFailed ParserError)], 1%Z)) /\
  (read w path = Parsed [] ->
   process_on d w path = ([Print (LoadFailed (ValueError NoTracks))], 1%Z)).
Proof.
  intros Hfile. unfold process_on, main_on, run_analysis_on, load_gpx_file.
  rewrite Hfile. cbn [init file_path].
  repeat split; intros ->; reflexivity.
Qed.

Lemma process_on_no_points
    (d : Desktop) (w : World) (path : string) (g : GPX) :
  isfile w path = true -> read w path = Parsed g -> g <> [] ->
  List.concat (List.concat g) = [] ->
  process_on d w path = ([Traceback (ValueError NoPoints)], 1%Z).
Proof.
  intros Hfile Hread Hg Hpts.
  unfold process_on, main_on, run_analysis_on, load_gpx_file.
  rewrite Hfile. cbn [init file_path]. rewrite Hread.
  destruct g as [|track g']; [congruence|].
  unfold ret. rewrite bind_return.
  unfold extract_track_data. cbn [set_gpx gpx]. rewrite Hpts.
  reflexivity.
Qed.

(** A run that got its points ends in line 57, in line 67, in one of the
    presenters, or with the report. *)
Lemma process_on_of_points
    (d : Desktop) (w : World) (path : string) (g : GPX) (p : TrackPoint)
    (t : list TrackPoint) :
  isfile w path = true -> read w path = Parsed g -> g <> [] ->
  List.concat (List.concat g) = p :: t ->
  process_on d w path =
  match step_distances_geopy (coords_of (frame_of (p :: t))) with
  | inl e => ([Traceback e], 1%Z)
  | inr _ =>
      match series_diff (map elevation (p :: t)) with
      | inl e => ([Traceback e], 1%Z)
      | inr dd =>
          let df := frame_of (p :: t) in
          let gain := py_max zero (series_sum (clip_lower0 (fillna0 dd))) in
          match save_fault d with
          | Some x => (summary df gain ++ [Traceback x], 1%Z)
          | None =>
              match browser_fault d with
              | Some x =>
                  (summary df gain ++
                   [SaveMap map_file (coords_of df);
                    Print (MapSaved map_file); Traceback x], 1%Z)
              | None =>
                  match show_fault d with
                  | Some x =>
                      (summary df gain ++ map_events df ++ [Traceback x],
                       1%Z)
                  | None => (report df gain, 0%Z)
                  end
              end
          end
      end
  end.
Proof.
  intros Hfile Hread Hg Hpts.
  unfold process_on, main_on, run_analysis_on, load_gpx_file.
  rewrite Hfile. cbn [init file_path]. rewrite Hread.
  destruct g as [|track g']; [congruence|].
  unfold ret. rewrite bind_return.
  unfold extract_track_data. cbn [set_gpx gpx]. rewrite Hpts.
  unfold ret. rewrite bind_return.
  unfold calculate_metrics_geopy_run, calculate_metrics_geopy.
  cbn [set_track_data track_data rows].
  change (coords_of {| rows := p :: t; distance := None;
                       cumulative_distance := None |})
    with (coords_of (frame_of (p :: t))).
  destruct (step_distances_geopy (coords_of (frame_of (p :: t))))
    as [e|ds]; [reflexivity|].
  match goal with
  | |- context [calculate_metrics ?s] =>
      rewrite (@calculate_metrics_unfold P s (frame_of (p :: t)) eq_refl
                 ltac:(discriminate))
  end.
  change (elevations (frame_of (p :: t))) with (map elevation (p :: t)).
  destruct (series_diff (map elevation (p :: t))) as [e|dd];
    [reflexivity|].
  unfold visualize_track_on_map_on, plot_elevation_profile_on, attempt.
  cbn [stored track_data with_distances rows cumulative_distance frame_of].
  destruct (save_fault d) as [x|]; [reflexivity|].
  destruct (browser_fault d) as [x|]; [reflexivity|].
  destruct (show_fault d) as [x|]; reflexivity.
Qed.

(** C5, as amended: a path that is no file, a file that cannot be opened
    or parsed and a file without tracks each end the run with one printed
    line, status [1] and nothing else; each failure of the loader,
    a file without points included, ends it with a single diagnostic and no
    artifact.  Every run ends in one of five ways: with one diagnostic before
    the summary; after the summary, when the map cannot be saved; after
    the map and its notice, when the browser cannot be opened; after the
    browser, when the chart cannot be shown; or with the whole report and
    status [0].  So a run either aborts before any output or completes,
    provided no presenter fails. *)
Theorem failures_end_the_run (d : Desktop) (w : World) (path : string) :
  (isfile w path = false ->
   process_on d w path = ([Print NotAFile], 1%Z)) /\
  (isfile w path = true -> read w path = Missing ->
   process_on d w path = ([Print (FileMissing path)], 1%Z)) /\
  (isfile w path = true -> read w path = Broken ->
   process_on d w path = ([Print (LoadFailed ParserError)], 1%Z)) /\
  (isfile w path = true -> read w path = Parsed [] ->
   process_on d w path = ([Print (LoadFailed (ValueError NoTracks))], 1%Z)) /\
  (failure w path ->
   exists e, process_on d w path = ([e], 1%Z) /\ is_diagnostic e = true) /\
  run_shape d (process_on d w path) /\
  (save_fault d = None -> browser_fault d = None -> show_fault d = None ->
   aborted (process_on d w path) \/ completed (process_on d w path)).
Proof.
  split; [apply process_on_not_a_file|].
  split; [intros F; apply (process_on_unreadable d w path F)|].
  split; [intros F; apply (process_on_unreadable d w path F)|].
  split; [intros F; apply (process_on_unreadable d w path F)|].
  destruct (isfile w path) eqn:Hfile.
  2:{ rewrite (process_on_not_a_file d w path Hfile).
      split; [eauto|]. split; [now apply Ends_early with (e := Print NotAFile)|].
      intros _ _ _. left. repeat split; discriminate. }
  destruct (process_on_unreadable d w path Hfile) as (M & B & E).
  destruct (read w path) as [| |g] eqn:Hread.
  { rewrite (M eq_refl). split; [eauto|].
    split; [now eapply Ends_early|].
    intros _ _ _. left. repeat split; discriminate. }
  { rewrite (B eq_refl). split; [eauto|].
    split; [now eapply Ends_early|].
    intros _ _ _. left. repeat split; discriminate. }
  destruct g as [|track g'].
  { rewrite (E eq_refl). split; [eauto|].
    split; [now eapply Ends_early|].
    intros _ _ _. left. repeat split; discriminate. }
  destruct (List.concat (List.concat (track :: g'))) as [|p t] eqn:Hpts.
  { rewrite (process_on_no_points d w path Hfile Hread
               ltac:(discriminate) Hpts).
    split; [eauto|]. split; [now eapply Ends_early|].
    intros _ _ _. left. repeat split; discriminate. }
  split.
  { intros F. exfalso.
    destruct F as [H|H|H|H|g H Hnone]; congruence. }
  rewrite (process_on_of_points d w path Hfile Hread
             ltac:(discriminate) Hpts).
  destruct (step_distances_geopy (coords_of (frame_of (p :: t))))
    as [e|ds].
  { split; [now eapply Ends_early|].
    intros _ _ _. left. repeat split; discriminate. }
  destruct (series_diff (map elevation (p :: t))) as [e|dd].
  { split; [now eapply Ends_early|].
    intros _ _ _. left. repeat split; discriminate. }
  cbn zeta.
  destruct (save_fault d) as [x|] eqn:Hsave.
  { split; [|discriminate].
    eapply Ends_in_save; [exact Hsave|reflexivity|reflexivity]. }
  destruct (browser_fault d) as [x|] eqn:Hopen.
  { split; [|discriminate].
    eapply Ends_in_browser; [exact Hsave|exact Hopen|reflexivity|reflexivity]. }
  destruct (show_fault d) as [x|] eqn:Hshow.
  { split; [|discriminate].
    eapply Ends_in_show;
      [exact Hsave|exact Hopen|exact Hshow|reflexivity|reflexivity]. }
  split; [eapply Ends_well;
            [exact Hsave|exact Hopen|exact Hshow|reflexivity|reflexivity]|].
  intros _ _ _. right. unfold completed, report. cbn [fst snd]. eauto 10.
Qed.

(** X16: the failures that no [except] catches, each ending the run with
    the interpreter's report, status [1] and nothing else, whatever the
    desktop: a file with tracks but without points ([ValueError], line 49);
    two or more points of which geopy does not accept one ([ValueError],
    line 57); two or more accepted points without any [<ele>]
    ([TypeError], line 67). *)
Theorem uncaught_failures
    (d : Desktop) (w : World) (path : string) (g : GPX) :
  isfile w path = true -> read w path = Parsed g -> g <> [] ->
  let points := List.concat (List.concat g) in
  (points = [] ->
   process_on d w path = ([Traceback (ValueError NoPoints)], 1%Z)) /\
  (2 <= length points -> accepted (frame_of points) = false ->
   process_on d w path = ([Traceback (ValueError BadCoordinate)], 1%Z)) /\
  (2 <= length points -> accepted (frame_of points) = true ->
   (forall p, In p points -> elevation p = None) ->
   process_on d w path = ([Traceback TypeError], 1%Z)).
Proof.
  intros Hfile Hread Hg points. split; [|split].
  - intros E. now apply process_on_no_points with g.
  - intros Hlen Hbad. unfold points in *.
    destruct (List.concat (List.concat g)) as [|p t] eqn:E;
      [cbn in Hlen; lia|].
    rewrite (process_on_of_points d w path Hfile Hread Hg E).
    rewrite (step_distances_geopy_rejected (coords_of (frame_of (p :: t))));
      [reflexivity| |exact Hbad].
    now rewrite coords_of_length.
  - intros Hlen Hok Hall. unfold points in *.
    destruct (List.concat (List.concat g)) as [|p t] eqn:E;
      [cbn in Hlen; lia|].
    rewrite (process_on_of_points d w path Hfile Hread Hg E).
    rewrite (step_distances_geopy_accepted _ Hok).
    destruct (proj2 (series_diff_raises (map elevation (p :: t))))
      as [e He].
    { split; [|now rewrite length_map].
      intros o Ho. apply in_map_iff in Ho.
      destruct Ho as (q & <- & Hq). now apply Hall. }
    rewrite He. now rewrite (series_diff_only_TypeError _ He).
Qed.

(** X14: what a run that ends with status [0] has shown: the four lines
    of the summary, the map, its notice, the browser and the chart, in this
    order and nothing else.  The map holds every point of the file in file
    order; the chart has one x and one y per point, the y's being the
    elevations of the points and the first x being [0]; the extrema printed
    are those of the elevations charted. *)
Theorem completed_report_is_consistent
    (d : Desktop) (w : World) (path : string) :
  snd (process_on d w path) = 0%Z ->
  exists g total hi lo gain xs,
    read w path = Parsed g /\
    let points := List.concat (List.concat g) in
    fst (process_on d w path) =
      [Print (TotalDistanceLine total); Print (MaxElevationLine hi);
       Print (MinElevationLine lo); Print (ElevationGainLine gain);
       SaveMap map_file (map coord points); Print (MapSaved map_file);
       OpenBrowser map_file; ShowChart xs (map elevation points)] /\
    points <> [] /\
    length xs = length points /\
    nth_error xs 0 = Some zero /\
    hi = series_max (map elevation points) /\
    lo = series_min (map elevation points).
Proof.
  intros H0.
  destruct (isfile w path) eqn:Hfile;
    [|rewrite (process_on_not_a_file d w path Hfile) in H0; discriminate].
  destruct (process_on_unreadable d w path Hfile) as (M & B & E).
  destruct (read w path) as [| |g] eqn:Hread;
    [rewrite (M eq_refl) in H0; discriminate
    |rewrite (B eq_refl) in H0; discriminate|].
  destruct g as [|track g'];
    [rewrite (E eq_refl) in H0; discriminate|].
  destruct (List.concat (List.concat (track :: g'))) as [|p t] eqn:Hpts.
  { rewrite (process_on_no_points d w path Hfile Hread
               ltac:(discriminate) Hpts) in H0. discriminate. }
  pose proof (process_on_of_points d w path Hfile Hread
                ltac:(discriminate) Hpts) as Hp.
  rewrite Hp in H0. rewrite Hp. clear Hp.
  destruct (step_distances_geopy (coords_of (frame_of (p :: t))))
    as [e|ds]; [discriminate|].
  destruct (series_diff (map elevation (p :: t))) as [e|dd];
    [discriminate|].
  cbn zeta in *.
  destruct (save_fault d) as [x|]; [discriminate|].
  destruct (browser_fault d) as [x|]; [discriminate|].
  destruct (show_fault d) as [x|]; [discriminate|].
  exists (track :: g'). do 5 eexists. split; [reflexivity|].
  cbn zeta. rewrite Hpts. unfold report. rewrite coords_of_map.
  change (rows (frame_of (p :: t))) with (p :: t).
  change (elevations (frame_of (p :: t))) with (map elevation (p :: t)).
  cbn [fst]. split; [reflexivity|]. split; [discriminate|].
  repeat split.
  rewrite cumsum_length. cbn [length].
  rewrite step_distances_length, length_map. cbn [length]. lia.
Qed.


End EnvironmentRunFacts.

(** ** The environment on the integer platform *)

(** A file with tracks and no point: the [ValueError] of line 49 is caught
    by nobody, unlike the one of line 25. *)
Example no_points_is_uncaught :
  @process_on ZPlatform ZGeopy working_desktop pointless_world track_file =
    ([@Traceback ZPlatform (ValueError NoPoints)], 1%Z).
Proof. reflexivity. Qed.

(** C5, as stated, fails: when the map cannot be saved, the run has printed
    the summary and then ends with status [1]; it has neither aborted
    before any output nor completed. *)
Lemma report_cut_short_when_map_cannot_be_saved :
  let r := @process_on ZPlatform ZGeopy read_only_desktop (world_of hill)
             track_file in
  r = ([Print (@TotalDistanceLine ZPlatform 20%Z);
        Print (@MaxElevationLine ZPlatform (Some 150%Z));
        Print (@MinElevationLine ZPlatform (Some 100%Z));
        Print (@ElevationGainLine ZPlatform 50%Z);
        @Traceback ZPlatform OSError], 1%Z) /\
  ~ (aborted r \/ completed r).
Proof.
  cbn zeta. split; [reflexivity|].
  intros [(_ & H & _)|(total & hi & lo & gain & pth & xs & ys & _ & H)];
    vm_compute in H; discriminate.
Qed.

Lemma failures_end_the_run_witness :
  @process_on ZPlatform ZGeopy headless_desktop broken_world track_file =
    ([Print (@LoadFailed ZPlatform ParserError)], 1%Z) /\
  (exists e,
     @process_on ZPlatform ZGeopy headless_desktop pointless_world track_file
       = ([e], 1%Z) /\ is_diagnostic e = true) /\
  (aborted (@process_on ZPlatform ZGeopy working_desktop (world_of hill)
              track_file) \/
   completed (@process_on ZPlatform ZGeopy working_desktop (world_of hill)
                track_file)).
Proof.
  split; [|split].
  - exact (proj1 (proj2 (proj2
             (@failures_end_the_run ZPlatform ZGeopy headless_desktop
                broken_world track_file))) eq_refl eq_refl).
  - refine (proj1 (proj2 (proj2 (proj2 (proj2
             (@failures_end_the_run ZPlatform ZGeopy headless_desktop
                pointless_world track_file))))) _).
    apply EmptyTrack_points with (g := [[[]]]); reflexivity.
  - exact (proj2 (proj2 (proj2 (proj2 (proj2 (proj2
             (@failures_end_the_run ZPlatform ZGeopy working_desktop
                (world_of hill) track_file)))))) eq_refl eq_refl eq_refl).
Defined.

Lemma calculate_metrics_geopy_outcomes_witness :
  @calculate_metrics_geopy ZPlatform ZGeopy
    (analyzer_on track_file off_the_globe) =
    (analyzer_on track_file off_the_globe, Some (ValueError BadCoordinate)) /\
  @calculate_metrics_geopy ZPlatform ZGeopy
    (analyzer_on track_file bare_pair) =
    (stored (analyzer_on track_file bare_pair) (frame_of bare_pair) None,
     Some TypeError).
Proof.
  split.
  - exact (proj1 (@calculate_metrics_geopy_outcomes ZPlatform ZGeopy
                    (analyzer_on track_file off_the_globe)
                    (frame_of off_the_globe) eq_refl ltac:(discriminate))
             ltac:(cbn; lia) eq_refl).
  - refine (proj1 (proj2 (@calculate_metrics_geopy_outcomes ZPlatform ZGeopy
                    (analyzer_on track_file bare_pair)
                    (frame_of bare_pair) eq_refl ltac:(discriminate)))
             ltac:(cbn; lia) eq_refl _).
    intros p [<-|[<-|[]]]; reflexivity.
Defined.

Lemma extrema_are_elevations_of_points_witness :
  exists plo phi lo hi,
    In plo hill /\ elevation plo = Some lo /\
    In phi hill /\ elevation phi = Some hi /\
    min_elevation
      (fst (@calculate_metrics_geopy ZPlatform ZGeopy
              (analyzer_on track_file hill))) = Some (Some lo) /\
    max_elevation
      (fst (@calculate_metrics_geopy ZPlatform ZGeopy
              (analyzer_on track_file hill))) = Some (Some hi).
Proof.
  exact (@extrema_are_elevations_of_points ZPlatform ZGeopy
           (analyzer_on track_file hill) (frame_of hill)
           (zpoint 0 10 (Some 150%Z)) 150%Z
           eq_refl eq_refl (or_intror (or_introl eq_refl)) eq_refl).
Defined.

Lemma extrema_bound_every_elevation_witness :
  exists lo hi,
    min_elevation
      (fst (@calculate_metrics_geopy ZPlatform ZGeopy
              (analyzer_on track_file hill))) = Some (Some lo) /\
    max_elevation
      (fst (@calculate_metrics_geopy ZPlatform ZGeopy
              (analyzer_on track_file hill))) = Some (Some hi) /\
    Z.leb lo 120 = true /\ Z.leb 120 hi = true.
Proof.
  exact (@extrema_bound_every_elevation ZPlatform ZGeopy
           Z_leb_total Z_leb_trans
           (analyzer_on track_file hill) (frame_of hill)
           (zpoint 0 20 (Some 120%Z)) 120%Z
           eq_refl eq_refl
           (or_intror (or_intror (or_introl eq_refl))) eq_refl).
Defined.

Lemma cumulative_distance_never_decreases_witness :
  exists steps cum,
    option_map distance
      (track_data (fst (@calculate_metrics_geopy ZPlatform ZGeopy
                          (analyzer_on track_file bare_walk))))
      = Some (Some (0%Z :: steps)) /\
    option_map cumulative_distance
      (track_data (fst (@calculate_metrics_geopy ZPlatform ZGeopy
                          (analyzer_on track_file bare_walk))))
      = Some (Some cum) /\
    Forall (fun s => Z.leb 0 s = true) steps /\
    nth_error cum 0 = Some 0%Z /\
    forall i, S i < length cum ->
      Z.leb (nth i cum 0%Z) (nth (S i) cum 0%Z) = true.
Proof.
  exact (@cumulative_distance_never_decreases ZPlatform ZGeopy
           Z_add_mono taxicab_nonneg
           (analyzer_on track_file bare_walk) (frame_of bare_walk)
           eq_refl ltac:(discriminate) eq_refl).
Defined.

Lemma gain_adds_row_gains_witness :
  snd (@calculate_metrics_geopy ZPlatform ZGeopy
         (analyzer_on track_file gap)) = None /\
  exists d,
    @series_diff ZPlatform [Some 100; None; Some 120]%Z = inr d /\
    clip_lower0 (fillna0 d) = [0; 0; 0]%Z /\
    elevation_gain
      (fst (@calculate_metrics_geopy ZPlatform ZGeopy
              (analyzer_on track_file gap))) = Some 0%Z.
Proof.
  exact (@gain_adds_row_gains ZPlatform ZGeopy
           Z_leb_total Z_leb_antisym Z_add_nonneg
           (analyzer_on track_file gap) (frame_of gap)
           (zpoint 0 0 (Some 100%Z)) 100%Z
           eq_refl eq_refl (or_introl eq_refl) eq_refl).
Defined.

Lemma appending_point_extends_columns_witness :
  exists dist cum,
    option_map distance
      (track_data (fst (@calculate_metrics_geopy ZPlatform ZGeopy
                          (analyzer_on track_file climb))))
      = Some (Some dist) /\
    option_map cumulative_distance
      (track_data (fst (@calculate_metrics_geopy ZPlatform ZGeopy
                          (analyzer_on track_file climb))))
      = Some (Some cum) /\
    option_map distance
      (track_data (fst (@calculate_metrics_geopy ZPlatform ZGeopy
                          (analyzer_on track_file hill))))
      = Some (Some (dist ++ [10%Z])) /\
    option_map cumulative_distance
      (track_data (fst (@calculate_metrics_geopy ZPlatform ZGeopy
                          (analyzer_on track_file hill))))
      = Some (Some (cum ++ [(last cum 0 + 10)%Z])).
Proof.
  exact (@appending_point_extends_columns ZPlatform ZGeopy
           (analyzer_on track_file climb) (analyzer_on track_file hill)
           (frame_of climb) (frame_of hill) (zpoint 0 20 (Some 120%Z))
           eq_refl eq_refl ltac:(discriminate) eq_refl eq_refl).
Defined.

Lemma uncaught_failures_witness :
  @process_on ZPlatform ZGeopy working_desktop (world_of off_the_globe)
    track_file = ([@Traceback ZPlatform (ValueError BadCoordinate)], 1%Z) /\
  @process_on ZPlatform ZGeopy working_desktop (world_of bare_pair)
    track_file = ([@Traceback ZPlatform TypeError], 1%Z).
Proof.
  split.
  - exact (proj1 (proj2
             (@uncaught_failures ZPlatform ZGeopy working_desktop
                (world_of off_the_globe) track_file [[off_the_globe]]
                eq_refl eq_refl ltac:(discriminate)))
             ltac:(cbn; lia) eq_refl).
  - refine (proj2 (proj2
             (@uncaught_failures ZPlatform ZGeopy working_desktop
                (world_of bare_pair) track_file [[bare_pair]]
                eq_refl eq_refl ltac:(discriminate)))
             ltac:(cbn; lia) eq_refl _).
    intros p [<-|[<-|[]]]; reflexivity.
Defined.

Lemma completed_report_is_consistent_witness :
  exists g total hi lo gain xs,
    read (world_of hill) track_file = Parsed g /\
    fst (@process_on ZPlatform ZGeopy working_desktop (world_of hill)
           track_file) =
      [Print (@TotalDistanceLine ZPlatform total);
       Print (MaxElevationLine hi);
       Print (MinElevationLine lo); Print (ElevationGainLine gain);
       SaveMap map_file (map coord (List.concat (List.concat g)));
       Print (MapSaved map_file);
       OpenBrowser map_file;
       ShowChart xs (map elevation (List.concat (List.concat g)))] /\
    List.concat (List.concat g) <> [] /\
    length xs = length (List.concat (List.concat g)) /\
    nth_error xs 0 = Some 0%Z /\
    hi = series_max (map elevation (List.concat (List.concat g))) /\
    lo = series_min (map elevation (List.concat (List.concat g))).
Proof.
  exact (@completed_report_is_consistent ZPlatform ZGeopy working_desktop
           (world_of hill) track_file eq_refl).
Defined.


(** ** The two readings agree

    On points that geopy accepts and a desktop that works, the run in its
    environment is the run of the first part. *)

Section Agreement.
Context {P : Platform} {G : Geopy}.

Lemma process_on_working_desktop (w : World) (path : string) :
  (forall g, read w path = Parsed g ->
             accepted (frame_of (List.concat (List.concat g))) = true) ->
  process_on working_desktop w path = process w path.
Proof.
  intros Hok.
  destruct (isfile w path) eqn:Hfile;
    [|now rewrite process_on_not_a_file, process_not_a_file].
  destruct (read w path) as [| |g] eqn:Hread.
  - unfold process_on, main_on, run_analysis_on, process, main,
      run_analysis, load_gpx_file.
    rewrite Hfile. cbn [init file_path]. now rewrite Hread.
  - unfold process_on, main_on, run_analysis_on, process, main,
      run_analysis, load_gpx_file.
    rewrite Hfile. cbn [init file_path]. now rewrite Hread.
  - destruct g as [|track g'].
    + unfold process_on, main_on, run_analysis_on, process, main,
        run_analysis, load_gpx_file.
      rewrite Hfile. cbn [init file_path]. now rewrite Hread.
    + specialize (Hok _ eq_refl).
      destruct (List.concat (List.concat (track :: g'))) as [|p t] eqn:E.
      * rewrite (process_on_no_points working_desktop w path Hfile Hread
                   ltac:(discriminate) E).
        now rewrite (process_no_points w path Hfile Hread
                       ltac:(discriminate) E).
      * rewrite (process_on_of_points working_desktop w path Hfile Hread
                   ltac:(discriminate) E).
        rewrite (process_of_points w path Hfile Hread
                   ltac:(discriminate) E).
        rewrite (step_distances_geopy_accepted _ Hok).
        destruct (series_diff (map elevation (p :: t))); reflexivity.
Qed.

End Agreement.
